(** * PythonApiRest: registration, login and bearer-token resolution

    A shallow embedding of the FastAPI service under [ApiRest/]:
    - [config.py]    the [Settings] record and its defaults;
    - [schemas.py]   the pydantic shapes [UserCreate], [UserResponse], [Token];
    - [database.py]  the scoped session of [DatabaseManager.get_db];
    - [crud.py]      [get_user_by_email], [get_user_by_username], [create_user];
    - [main.py]      [get_current_user], [register_user], [login],
                     [read_users_me] and the [response_model] of each route.

    Python exceptions are values of [exn]; a handler body is a computation in
    the monad [M], which threads the SQLAlchemy session and the log written
    through [logger] and returns either a value or a raised exception.  What
    the service cannot decide by itself (the clock, the salt drawn by the
    hasher, a store operation that raises) is read from [Env]. *)

From stdpp Require Import base option list strings gmap pretty.
From Stdlib Require Import ZArith Lia.

#[local] Open Scope string_scope.
#[local] Open Scope list_scope.
#[local] Open Scope Z_scope.

(** ** Python values and exceptions *)

(** A value held in a JWT claim dict ([payload.get("sub")] may be any of
    these). *)
Inductive pyval :=
| PyNone
| PyStr (s : string)
| PyInt (n : Z).

#[global] Instance pyval_eq_dec : EqDecision pyval.
Proof. solve_decision. Defined.

(** The subclasses of [sqlalchemy.exc.SQLAlchemyError] a session can raise. *)
Inductive sa_class := IntegrityError | OperationalError | InvalidRequestError.

#[global] Instance sa_class_eq_dec : EqDecision sa_class.
Proof. solve_decision. Defined.

(** The exceptions a request can meet: FastAPI's [HTTPException], a
    [SQLAlchemyError] of the session, the single [InvalidToken] rejection the
    specification gives the token service, and [PyError] for any other Python
    exception (class name and message). *)
Inductive exn :=
| HTTPException (status_code : Z) (detail : string)
                (headers : option (list (string * string)))
| SQLAlchemyError (cls : sa_class) (msg : string)
| InvalidToken
| PyError (cls : string) (msg : string).

#[global] Instance exn_eq_dec : EqDecision exn.
Proof. solve_decision. Defined.

(** [str(ex)]: starlette prints an [HTTPException] as ["<status>: <detail>"]. *)
Definition str (ex : exn) : string :=
  match ex with
  | HTTPException status_code detail _ => pretty status_code +:+ ": " +:+ detail
  | SQLAlchemyError _ msg => msg
  | InvalidToken => "InvalidToken"
  | PyError _ msg => msg
  end.

Inductive result (A : Type) :=
| Return (a : A)
| Raise (e : exn).
Arguments Return {A} a.
Arguments Raise {A} e.

(** ** config.py *)

Record Settings := {
  SECRET_KEY : string;
  ALGORITHM : string;
  ACCESS_TOKEN_EXPIRE_MINUTES : Z;
  DATABASE_URL : string
}.

(** The class defaults of [Settings]; a [.env] file may override each. *)
Definition settings : Settings := {|
  SECRET_KEY := "90de4293c01e469715d923460159ddb92c2f17730a4e373104566b3aab828e235c713fd6f0a9e2c6205c85f782c70e288d5443d6209170be87d4886ae6f9b4cb33cac5cd9186860c9cf1353a77d8131676c5877f0ee6d8c363774f985cc8823f3c193d769682e6e04e1a92c168d33c6bd82c037e9f246e1a6fa413d7abc2f04d57dff20b347891badb37b28f9ea4a8a10d1bebc43cd05e0fea689264681adfba960f22d88d03e25f639d66ffdaa9de7dd76fef07639dde8dc52fffb7043241ccb8ccf42911f52e76dfbcdd04b41042f04f5fbefdd4eea107bd72b09d5b44ce175b79ff9b7639fb058d95fd9e59d188d0e2c3065d487632d6bfe1fa3248519e34";
  ALGORITHM := "HS256";
  ACCESS_TOKEN_EXPIRE_MINUTES := 30;
  DATABASE_URL := "sqlite:///./database/sql_app.db"
|}.

(** [timedelta(minutes=m)], in seconds. *)
Definition timedelta_minutes (m : Z) : Z := m * 60.

(** ** schemas.py *)

(** The request body of [/register] and [/login], after pydantic validated
    it. *)
Record UserCreate := {
  uc_email : string;
  uc_username : string;
  uc_password : string
}.

(** The bearer string of a request or of a login response.

    Modelled from the spec: [security.py], which encodes and decodes it, is
    not among the sources.  On the wire it is three dot-separated base64url
    segments (header, claims payload, signature); here the segments are kept
    decoded, and a string that does not split into them is [Garbled]. *)
Inductive bearer :=
| Garbled (s : string)
| Jwt (alg : string) (claims : gmap string pyval) (signature : string).

#[global] Instance bearer_eq_dec : EqDecision bearer.
Proof. solve_decision. Defined.

Record Token := {
  access_token : bearer;
  token_type : string
}.

Record UserResponse := {
  ur_email : string;
  ur_username : string;
  ur_id : Z;
  ur_is_active : bool
}.

(** ** The user table *)

(** Modelled from the spec: [models.py] is not among the sources.  A User is
    a numeric id assigned by the store, an email, a username, a password hash
    and an active flag. *)
Record UserModel := {
  um_id : Z;
  um_email : string;
  um_username : string;
  um_hashed_password : string;
  um_is_active : bool
}.

(** The [user_data] dict of [register_user], which is also the transient
    [UserModel] built from it, before the store has given it an id. *)
Record UserData := {
  ud_email : string;
  ud_username : string;
  ud_hashed_password : string;
  ud_is_active : bool
}.

#[global] Instance UserModel_eq_dec : EqDecision UserModel.
Proof. solve_decision. Defined.
#[global] Instance UserData_eq_dec : EqDecision UserData.
Proof. solve_decision. Defined.
#[global] Instance UserResponse_eq_dec : EqDecision UserResponse.
Proof. solve_decision. Defined.

Definition row_of (k : Z) (d : UserData) : UserModel := {|
  um_id := k;
  um_email := ud_email d;
  um_username := ud_username d;
  um_hashed_password := ud_hashed_password d;
  um_is_active := ud_is_active d
|}.

Definition data_of (u : UserModel) : UserData := {|
  ud_email := um_email u;
  ud_username := um_username u;
  ud_hashed_password := um_hashed_password u;
  ud_is_active := um_is_active u
|}.

(** ** Session, log and environment *)

(** A SQLAlchemy session over the user table: the committed rows, the objects
    added with [db.add] and not yet flushed, and whether [db.close] ran. *)
Record Session := {
  table : list UserModel;
  pending : list UserData;
  closed : bool
}.

Inductive level := INFO | WARNING | ERROR.

Record LogRecord := {
  levelname : level;
  message : string
}.

Record World := {
  db : Session;
  log : list LogRecord
}.

(** What one request reads from outside: the clock, the salt the hasher
    draws, the loaded settings, and for each store operation the
    [SQLAlchemyError] it raises, if any. *)
Record Env := {
  now : Z;
  salt : string;
  cfg : Settings;
  fault_query_email : option (sa_class * string);
  fault_query_username : option (sa_class * string);
  fault_commit : option (sa_class * string);
  fault_refresh : option (sa_class * string)
}.

(** ** The monad of handler bodies *)

Definition M (A : Type) : Type := World → result A * World.

#[global] Instance M_ret : MRet M := λ A a w, (Return a, w).
#[global] Instance M_bind : MBind M := λ A B f m w,
  match m w with
  | (Return a, w') => f a w'
  | (Raise e, w') => (Raise e, w')
  end.

Definition raise {A} (e : exn) : M A := λ w, (Raise e, w).

(** [try: m  except Exception as ex: h ex]. *)
Definition try_except {A} (m : M A) (h : exn → M A) : M A := λ w,
  match m w with
  | (Return a, w') => (Return a, w')
  | (Raise e, w') => h e w'
  end.

(** [try: m  except SQLAlchemyError as e: h e]: other exceptions pass. *)
Definition try_except_SQLAlchemyError {A} (m : M A) (h : exn → M A) : M A :=
  try_except m (λ e, match e with
                     | SQLAlchemyError _ _ => h e
                     | _ => raise e
                     end).

Definition emit (l : level) (msg : string) : M unit := λ w,
  (Return tt, {| db := db w; log := log w ++ [ {| levelname := l; message := msg |} ] |}).

Module logger.
Definition info := emit INFO.
Definition warning := emit WARNING.
Definition error := emit ERROR.
End logger.

Definition with_db (f : Session → Session) : M unit := λ w,
  (Return tt, {| db := f (db w); log := log w |}).

Definition get_table : M (list UserModel) := λ w, (Return (table (db w)), w).

Definition raise_fault {A} (f : sa_class * string) : M A :=
  raise (SQLAlchemyError f.1 f.2).

Definition lift {A} (r : result A) : M A := λ w, (r, w).

(** [try: m  finally: fin]. *)
Definition try_finally {A} (m : M A) (fin : M unit) : M A := λ w,
  match m w with
  | (r, w') =>
      match fin w' with
      | (Return _, w'') => (r, w'')
      | (Raise e, w'') => (Raise e, w'')
      end
  end.

(** ** The session operations the handlers call *)

(** The key the store gives the next row.  The store chooses it, not
    [create_user]; this is the rule of the default SQLite database for keys
    that are positive and below the end of the 64-bit range: one more than
    the largest key in use, 1 for an empty table. *)
Definition fresh_id (tbl : list UserModel) : Z :=
  1 + foldr Z.max 0 (um_id <$> tbl).

Definition insert_all (tbl : list UserModel) (ds : list UserData) : list UserModel :=
  foldl (λ t d, t ++ [row_of (fresh_id t) d]) tbl ds.

Definition flush (s : Session) : Session :=
  {| table := insert_all (table s) (pending s); pending := []; closed := closed s |}.

(** [db.query(UserModel).filter(p).first()]. *)
Definition query_first (fault : option (sa_class * string))
    (p : UserModel → bool) : M (option UserModel) :=
  match fault with
  | Some f => raise_fault f
  | None => tbl ← get_table; mret (List.find p tbl)
  end.

Definition db_add (d : UserData) : M unit :=
  with_db (λ s, {| table := table s; pending := pending s ++ [d]; closed := closed s |}).

(** [db.commit()].  When it fails, the class and the message of the error
    are the store's, read from [Env]; SQLAlchemy's own message quotes the
    statement with its parameters, so for this INSERT it names the row being
    added, [hashed_password] included. *)
Definition db_commit (env : Env) : M unit :=
  match fault_commit env with
  | Some f => raise_fault f
  | None => with_db flush
  end.

(** [db.refresh(obj)] reads the row of [obj] back: the latest row holding
    its attributes.  It raises when the read fails or the row is gone. *)
Definition db_refresh (env : Env) (d : UserData) : M UserModel :=
  match fault_refresh env with
  | Some f => raise_fault f
  | None =>
      tbl ← get_table;
      match last (filter (λ u, data_of u = d) tbl) with
      | Some u => mret u
      | None => raise (SQLAlchemyError InvalidRequestError "Could not refresh instance")
      end
  end.

Definition db_rollback : M unit :=
  with_db (λ s, {| table := table s; pending := []; closed := closed s |}).

Definition db_close : M unit :=
  with_db (λ s, {| table := table s; pending := []; closed := true |}).

(** [self.SessionLocal()]: a new session on the same table. *)
Definition SessionLocal : M unit :=
  with_db (λ s, {| table := table s; pending := []; closed := false |}).

(** ** database.py *)

(** [DatabaseManager.get_db], entered around [body]:
    [db = self.SessionLocal(); try: yield db; finally: db.close()]. *)
Definition get_db {A} (body : M A) : M A :=
  SessionLocal;; try_finally body db_close.

(** ** crud.py *)

Definition get_user_by_email (env : Env) (email : pyval) : M (option UserModel) :=
  try_except_SQLAlchemyError
    (query_first (fault_query_email env) (λ u, bool_decide (PyStr (um_email u) = email)))
    (λ e, raise (HTTPException 500 ("Error al consultar la base de datos: " +:+ str e) None)).

Definition get_user_by_username (env : Env) (username : string) : M (option UserModel) :=
  try_except_SQLAlchemyError
    (query_first (fault_query_username env) (λ u, bool_decide (um_username u = username)))
    (λ e, raise (HTTPException 500 ("Error al consultar la base de datos: " +:+ str e) None)).

Definition create_user (env : Env) (user_data : UserData) : M UserModel :=
  try_except_SQLAlchemyError
    (db_add user_data;;
     db_commit env;;
     db_refresh env user_data)
    (λ e, db_rollback;;
          raise (HTTPException 500 ("Error al crear el usuario: " +:+ str e) None)).

(** ** security.py, as main.py sees it *)

(** [main.py] imports four functions from [security.py], which is not among
    the sources; the handlers below are stated over any implementation.
    The module-level [settings], the clock and the salt are made arguments. *)
Class Security := {
  get_password_hash : string → string → string;
  verify_password : string → string → result bool;
  create_access_token : Settings → Z → gmap string pyval → Z → bearer;
  decode_token : Settings → Z → bearer → result (gmap string pyval)
}.

(** ** main.py *)

Section Handlers.
Context {security : Security}.
Variable env : Env.

Definition get_current_user (credentials : bearer) : M UserModel :=
  try_except
    (let token := credentials in
     payload ← lift (decode_token (cfg env) (now env) token);
     user ← get_user_by_email env (default PyNone (payload !! "sub"));
     match user with
     | None => raise (HTTPException 401 "Usuario no encontrado" None)
     | Some user => mret user
     end)
    (λ ex, logger.error ("Error en autenticación: " +:+ str ex);; raise ex).

Definition register_user (user : UserCreate) : M UserModel :=
  try_except
    (logger.info ("Intento de registro para el email: " +:+ uc_email user);;
     db_user ← get_user_by_email env (PyStr (uc_email user));
     match db_user with
     | Some _ =>
         logger.warning ("Intento de registro con email duplicado: " +:+ uc_email user);;
         raise (HTTPException 400 "Email ya registrado" None)
     | None =>
         db_user_by_username ← get_user_by_username env (uc_username user);
         match db_user_by_username with
         | Some _ =>
             logger.warning
               ("Intento de registro con username duplicado: " +:+ uc_username user);;
             raise (HTTPException 400 "Nombre de usuario ya registrado" None)
         | None =>
             let hashed_password := get_password_hash (salt env) (uc_password user) in
             let user_data := {| ud_email := uc_email user;
                                 ud_username := uc_username user;
                                 ud_hashed_password := hashed_password;
                                 ud_is_active := true |} in
             new_user ← create_user env user_data;
             logger.info ("Usuario registrado exitosamente: " +:+ uc_email user);;
             mret new_user
         end
     end)
    (λ ex, logger.error ("Error en registro de usuario: " +:+ str ex);; raise ex).

Definition login (user_credentials : UserCreate) : M Token :=
  try_except
    (logger.info ("Intento de login para el email: " +:+ uc_email user_credentials);;
     user ← get_user_by_email env (PyStr (uc_email user_credentials));
     rejected ←
       match user with
       | None => mret true
       | Some user =>
           ok ← lift (verify_password (uc_password user_credentials)
                                      (um_hashed_password user));
           mret (negb ok)
       end;
     match rejected, user with
     | false, Some user =>
         let access_token_expires :=
           timedelta_minutes (ACCESS_TOKEN_EXPIRE_MINUTES (cfg env)) in
         let access_token :=
           create_access_token (cfg env) (now env)
             {[ "sub" := PyStr (um_email user) ]} access_token_expires in
         logger.info ("Login exitoso para el email: " +:+ uc_email user_credentials);;
         mret {| access_token := access_token; token_type := "bearer" |}
     | _, _ =>
         logger.warning
           ("Intento de login fallido para el email: " +:+ uc_email user_credentials);;
         raise (HTTPException 401 "Credenciales incorrectas"
                              (Some [("WWW-Authenticate", "Bearer")]))
     end)
    (λ ex, logger.error ("Error en login: " +:+ str ex);; raise ex).

Definition read_users_me (current_user : UserModel) : M UserModel :=
  try_except
    (logger.info ("Consulta de perfil para el usuario: " +:+ um_email current_user);;
     mret current_user)
    (λ ex, logger.error ("Error al obtener perfil de usuario: " +:+ str ex);; raise ex).

(** *** The routes: dependencies and [response_model] *)

(** The routes as their declarations read: the handler runs on the session
    of [Depends(db_manager.get_db)], opened before it and released after it,
    and the value returned is filtered through the route's [response_model].
    FastAPI enters a dependency only when it is itself a generator function;
    [get_db] is wrapped by [contextmanager], so a deployment hands the handler
    the context manager in place of a session and the request ends in an
    error before any lookup.  What is proved of the handlers below is proved
    of them run on a session, and does not rest on these three definitions. *)

(** [response_model=UserResponse] with [from_attributes = True]: the
    response body is read off the returned object, field by field. *)
Definition UserResponse_from (u : UserModel) : UserResponse := {|
  ur_email := um_email u;
  ur_username := um_username u;
  ur_id := um_id u;
  ur_is_active := um_is_active u
|}.

(** [POST /register]. *)
Definition post_register (user : UserCreate) : M UserResponse :=
  get_db (new_user ← register_user user; mret (UserResponse_from new_user)).

(** [POST /login]. *)
Definition post_login (user_credentials : UserCreate) : M Token :=
  get_db (login user_credentials).

(** [GET /users/me], with [Depends(get_current_user)]. *)
Definition get_users_me (credentials : bearer) : M UserResponse :=
  get_db (current_user ← get_current_user credentials;
          me ← read_users_me current_user;
          mret (UserResponse_from me)).
End Handlers.

(** ** security.py, from the specification *)

Module security.
Section Spec.
(** The slow salted password digest and the symmetric signature over a
    claim set; both stay abstract. *)
Variable kdf : string → string → string.
Variable mac : string → string → gmap string pyval → string.

(** Splits [salt$digest] at the first dollar sign. *)
Fixpoint split_hash (h : string) : option (string * string) :=
  match h with
  | EmptyString => None
  | String c rest =>
      if Ascii.eqb c (Ascii.ascii_of_nat 36) then Some (EmptyString, rest)
      else '(s, d) ← split_hash rest; Some (String c s, d)
  end.

(** Modelled from the spec: the Credential Hasher's [hash].  The
    hash value embeds the salt it was made with. *)
Definition get_password_hash (salt plaintext : string) : string :=
  salt +:+ "$" +:+ kdf salt plaintext.

(** Modelled from the spec: the Credential Hasher's [verify]: true iff
    the plaintext, hashed with the parameters embedded in the hash value,
    matches; a mismatch is a plain false, only a malformed hash value
    is an error. *)
Definition verify_password (plaintext hash_value : string) : result bool :=
  match split_hash hash_value with
  | Some (s, d) => Return (bool_decide (kdf s plaintext = d))
  | None => Raise (PyError "UnknownHashError" "hash could not be identified")
  end.

(** Modelled from the spec: the Token Service's [issue]: the claim set is
    the caller's data with [iat] = now and [exp] = now + ttl, signed with
    the configured secret and algorithm. *)
Definition create_access_token (cfg : Settings) (now : Z)
    (data : gmap string pyval) (expires_delta : Z) : bearer :=
  let to_encode :=
    <["exp" := PyInt (now + expires_delta)]> (<["iat" := PyInt now]> data) in
  Jwt (ALGORITHM cfg) to_encode (mac (SECRET_KEY cfg) (ALGORITHM cfg) to_encode).

(** Modelled from the spec: the Token Service's [decode]: parse, verify
    the signature, verify [exp > now]; every failure is the one
    [InvalidToken] rejection. *)
Definition decode_token (cfg : Settings) (now : Z) (token : bearer)
    : result (gmap string pyval) :=
  match token with
  | Garbled _ => Raise InvalidToken
  | Jwt alg claims signature =>
      if bool_decide (alg = ALGORITHM cfg)
         && bool_decide (signature = mac (SECRET_KEY cfg) alg claims)
      then match claims !! "exp" with
           | Some (PyInt exp) =>
               if bool_decide (now < exp) then Return claims else Raise InvalidToken
           | _ => Raise InvalidToken
           end
      else Raise InvalidToken
  end.

(** [issue(sub, ttl)] of the specification. *)
Definition issue (cfg : Settings) (now : Z) (sub : string) (ttl : Z) : bearer :=
  create_access_token cfg now {[ "sub" := PyStr sub ]} ttl.

Definition spec_security : Security :=
  Build_Security get_password_hash verify_password create_access_token decode_token.
End Spec.
End security.

(** ** A closed instance, for evaluating the handlers on concrete requests *)

Module Closed.
(** A small polynomial checksum standing in for the two digests. *)
Definition checksum (s : string) : Z :=
  foldl (λ acc c, (acc * 31 + Z.of_nat (Ascii.nat_of_ascii c)) `mod` 65521) 7
        (String.list_ascii_of_string s).

Definition render (v : pyval) : string :=
  match v with
  | PyNone => "null"
  | PyStr s => s
  | PyInt n => pretty n
  end.

Definition kdf (salt plaintext : string) : string :=
  pretty (checksum (salt +:+ plaintext)).

Definition mac (key alg : string) (claims : gmap string pyval) : string :=
  pretty (checksum (key +:+ alg +:+
    String.concat "," ((λ kv, kv.1 +:+ "=" +:+ render kv.2) <$> map_to_list claims))).

#[export] Instance closed_security : Security := security.spec_security kdf mac.

Definition env0 : Env := {|
  now := 1000; salt := "s4lt"; cfg := settings;
  fault_query_email := None; fault_query_username := None;
  fault_commit := None; fault_refresh := None
|}.

Definition world0 : World :=
  {| db := {| table := []; pending := []; closed := true |}; log := [] |}.

Definition alice : UserCreate :=
  {| uc_email := "a@x.com"; uc_username := "alice"; uc_password := "pw1" |}.
Definition bob : UserCreate :=
  {| uc_email := "a@x.com"; uc_username := "bob"; uc_password := "pw2" |}.
End Closed.

(** * Vocabulary of the statements *)

(** ** What the store's lookups return *)

Definition find_by_email (tbl : list UserModel) (email : pyval) : option UserModel :=
  List.find (λ u, bool_decide (PyStr (um_email u) = email)) tbl.

Definition find_by_username (tbl : list UserModel) (username : string) : option UserModel :=
  List.find (λ u, bool_decide (um_username u = username)) tbl.

(** ** The exceptions the handlers raise *)

Definition query_error (f : sa_class * string) : exn :=
  HTTPException 500 ("Error al consultar la base de datos: " +:+ f.2) None.

Definition create_error (f : sa_class * string) : exn :=
  HTTPException 500 ("Error al crear el usuario: " +:+ f.2) None.

Definition invalid_credentials : exn :=
  HTTPException 401 "Credenciales incorrectas" (Some [("WWW-Authenticate", "Bearer")]).

Definition user_not_found : exn := HTTPException 401 "Usuario no encontrado" None.

Definition duplicate_email : exn := HTTPException 400 "Email ya registrado" None.
Definition duplicate_username : exn :=
  HTTPException 400 "Nombre de usuario ya registrado" None.

(** ** Worlds after a step *)

Definition logged (l : level) (msg : string) (w : World) : World :=
  {| db := db w; log := log w ++ [ {| levelname := l; message := msg |} ] |}.

Definition set_db (s : Session) (w : World) : World := {| db := s; log := log w |}.

Definition rolled_back (s : Session) : Session :=
  {| table := table s; pending := []; closed := closed s |}.

(** The session after [db.add(d); db.commit()], and the row [d] became. *)
Definition new_row (s : Session) (d : UserData) : UserModel :=
  row_of (fresh_id (insert_all (table s) (pending s))) d.

Definition inserted (s : Session) (d : UserData) : Session :=
  {| table := insert_all (table s) (pending s) ++ [new_row s d]; pending := [];
     closed := closed s |}.

(** The [user_data] that [register_user] hands to [create_user]. *)
Definition user_data_of {security : Security} (env : Env) (user : UserCreate) : UserData :=
  {| ud_email := uc_email user;
     ud_username := uc_username user;
     ud_hashed_password := get_password_hash (salt env) (uc_password user);
     ud_is_active := true |}.

(** ** Stored hashes and submitted passwords, varied *)



Definition set_password (pw : string) (user : UserCreate) : UserCreate :=
  {| uc_email := uc_email user; uc_username := uc_username user; uc_password := pw |}.

(** ** The scenario of the specification *)

Module Scenario.
Import Closed.

(** The store after [register("a@x.com", "alice", "pw1")]. *)
Definition world1 : World := Eval vm_compute in (post_register env0 alice world0).2.

Definition alice_row : UserModel :=
  {| um_id := 1; um_email := "a@x.com"; um_username := "alice";
     um_hashed_password := "s4lt$3030"; um_is_active := true |}.

Definition nobody : UserCreate :=
  {| uc_email := "n@x.com"; uc_username := "nobody"; uc_password := "pw1" |}.
Definition mallory : UserCreate :=
  {| uc_email := "a@x.com"; uc_username := "alice"; uc_password := "guess" |}.
Definition carol : UserCreate :=
  {| uc_email := "c@x.com"; uc_username := "alice"; uc_password := "pw3" |}.
Definition dave : UserCreate :=
  {| uc_email := "d@x.com"; uc_username := "dave"; uc_password := "pw4" |}.

Definition dave_row : UserModel :=
  {| um_id := 2; um_email := "d@x.com"; um_username := "dave";
     um_hashed_password := "s4lt$3033"; um_is_active := true |}.

(** The token of alice's login at time 1000, and a token issued at time
    4000 for an address that was never registered. *)
Definition token_alice : bearer := security.issue mac settings 1000 "a@x.com" 1800.
Definition token_ghost : bearer := security.issue mac settings 4000 "ghost@x.com" 1800.

(** The same service at time 2000, and at time 5000, when [token_alice]
    has expired. *)
Definition env_soon : Env := {|
  now := 2000; salt := "s4lt"; cfg := settings;
  fault_query_email := None; fault_query_username := None;
  fault_commit := None; fault_refresh := None
|}.
Definition env_late : Env := {|
  now := 5000; salt := "s4lt"; cfg := settings;
  fault_query_email := None; fault_query_username := None;
  fault_commit := None; fault_refresh := None
|}.

(** The commit succeeds and the read-back of [db.refresh] then fails. *)
Definition env_refresh_fails : Env := {|
  now := 1000; salt := "s4lt"; cfg := settings;
  fault_query_email := None; fault_query_username := None;
  fault_commit := None;
  fault_refresh := Some (OperationalError, "server closed the connection unexpectedly")
|}.

(** A concurrent registration took the email between the pre-check and the
    insert: the commit hits the unique constraint. *)
Definition env_unique_violation : Env := {|
  now := 1000; salt := "s4lt"; cfg := settings;
  fault_query_email := None; fault_query_username := None;
  fault_commit := Some (IntegrityError, "UNIQUE constraint failed: users.email");
  fault_refresh := None
|}.
End Scenario.

(** * The rest of main.py *)

(** ** The security-header middleware *)

(** Starlette keeps the names of response headers in lower case and looks
    them up so; [response.headers[k] = v] replaces the value held under
    [k].  Repeated headers of one name are not represented. *)
Definition lower_ascii (c : Ascii.ascii) : Ascii.ascii :=
  let n := Ascii.nat_of_ascii c in
  if (65 <=? n)%nat && (n <=? 90)%nat then Ascii.ascii_of_nat (n + 32) else c.

Fixpoint lower (s : string) : string :=
  match s with
  | EmptyString => EmptyString
  | String c rest => String (lower_ascii c) (lower rest)
  end.

Record Response := {
  resp_status : Z;
  resp_headers : gmap string string;
  resp_body : string
}.

Definition header_get (k : string) (r : Response) : option string :=
  resp_headers r !! lower k.

Definition header_set (k v : string) (r : Response) : Response :=
  {| resp_status := resp_status r;
     resp_headers := <[lower k := v]> (resp_headers r);
     resp_body := resp_body r |}.

(** [add_security_headers(request, call_next)]. *)
Definition add_security_headers {Request : Type} (request : Request)
    (call_next : Request → M Response) : M Response :=
  response ← call_next request;
  let response := header_set "X-Frame-Options" "DENY" response in
  let response := header_set "X-Content-Type-Options" "nosniff" response in
  let response := header_set "X-XSS-Protection" "1; mode=block" response in
  let response :=
    header_set "Strict-Transport-Security" "max-age=31536000; includeSubDomains"
      response in
  mret response.

(** The four headers the middleware sets, with their values. *)
Definition security_headers : list (string * string) :=
  [ ("X-Frame-Options", "DENY");
    ("X-Content-Type-Options", "nosniff");
    ("X-XSS-Protection", "1; mode=block");
    ("Strict-Transport-Security", "max-age=31536000; includeSubDomains") ].

(** ** The OpenAPI schema and its cache *)

#[local] Unset Elimination Schemes.
Inductive json :=
| JString (s : string)
| JArray (items : list json)
| JObject (fields : list (string * json)).
#[local] Set Elimination Schemes.

(** The part of the [FastAPI] object [custom_openapi] reads and writes. *)
Record FastAPI (Routes : Type) := {
  routes : Routes;
  openapi_schema : option (gmap string json)
}.
Arguments routes {Routes} _.
Arguments openapi_schema {Routes} _.

(** Python truth of [app.openapi_schema]: [None] and the empty dict are
    false. *)
Definition truthy (o : option (gmap string json)) : bool :=
  match o with
  | Some s => negb (size s =? 0)%nat
  | None => false
  end.

Definition openapi_tags : json :=
  JArray [ JObject [ ("name", JString "usuarios");
                     ("description", JString "Operaciones con usuarios") ];
           JObject [ ("name", JString "autenticación");
                     ("description",
                      JString "Operaciones de autenticación y autorización") ] ].

Definition openapi_description : string :=
"
        API REST segura con características avanzadas:

        * **Autenticación**: Sistema JWT para gestión segura de sesiones
        * **Base de datos**: Soporte para MySQL, MSSQL, Oracle y SQLite
        * **Seguridad**: Implementación de recomendaciones OWASP
        * **Logging**: Sistema completo de registro de eventos
        * **Documentación**: API completamente documentada

        Para usar la API:
        1. Registra un nuevo usuario en `/register`
        2. Obtén un token JWT en `/login`
        3. Usa el token en el header `Authorization: Bearer <token>`
        ".

Section OpenAPI.
Context {Routes : Type}.

(** [fastapi.openapi.utils.get_openapi(title, version, description, routes)]. *)
Variable get_openapi : string → string → string → Routes → gmap string json.

Definition custom_openapi (app : FastAPI Routes) : gmap string json * FastAPI Routes :=
  let rebuilt :=
    let openapi_schema :=
      get_openapi "API REST Segura" "1.0.0" openapi_description (routes app) in
    let openapi_schema := <["tags" := openapi_tags]> openapi_schema in
    (openapi_schema, {| routes := routes app; openapi_schema := Some openapi_schema |}) in
  match openapi_schema app with
  | Some cached => if truthy (Some cached) then (cached, app) else rebuilt
  | None => rebuilt
  end.
End OpenAPI.

(** ** Further values of the scenario *)

Module More.
Import Closed.

Definition dave_data : UserData :=
  {| ud_email := "d@x.com"; ud_username := "dave";
     ud_hashed_password := "s4lt$3033"; ud_is_active := true |}.

(** The store after [create_user] added dave to [Scenario.world1]. *)
Definition world2 : World :=
  Eval vm_compute in (create_user env0 dave_data Scenario.world1).2.

(** The lookup by email fails. *)
Definition env_query_fails : Env := {|
  now := 1000; salt := "s4lt"; cfg := settings;
  fault_query_email := Some (OperationalError, "database is locked");
  fault_query_username := None;
  fault_commit := None; fault_refresh := None
|}.

(** A table row whose stored hash is not of the hasher's format. *)
Definition world_bad_hash : World :=
  {| db := {| table := [ {| um_id := 1; um_email := "a@x.com"; um_username := "alice";
                           um_hashed_password := "plain"; um_is_active := true |} ];
              pending := []; closed := true |};
     log := [] |}.

(** A signed token that carries no [sub] claim. *)
Definition token_no_sub : bearer :=
  security.create_access_token mac settings 1000 ∅ 1800.
End More.

(** ** How a handler call shows in the log *)

(** The call that turned [w] into [r.2] only appended to the log; if it
    raised, the last record is the ERROR line of the handler, made of
    [prefix] and [str] of the exception; if it returned, every record it
    appended is at level INFO. *)
Definition logs_outcome {A} (prefix : string) (w : World) (r : result A * World) : Prop :=
  log w `prefix_of` log r.2 ∧
  match r.1 with
  | Raise e =>
      last (log r.2) = Some {| levelname := ERROR; message := prefix +:+ str e |}
  | Return _ =>
      Forall (λ l, levelname l = INFO) (drop (length (log w)) (log r.2))
  end.

(** * Properties *)

(** ** Running the monad *)

(** Case analysis on every store answer the goal still branches on. *)
Ltac case_answers :=
  repeat match goal with
         | |- context [match ?o with Some _ => _ | None => _ end] => destruct o
         end.

Lemma bind_run {A B} (m : M A) (f : A → M B) w :
  (m ≫= f) w =
    match m w with
    | (Return a, w') => f a w'
    | (Raise e, w') => (Raise e, w')
    end.
Proof. reflexivity. Qed.

Lemma get_user_by_email_run env email w :
  get_user_by_email env email w =
    match fault_query_email env with
    | Some f => (Raise (query_error f), w)
    | None => (Return (find_by_email (table (db w)) email), w)
    end.
Proof.
  unfold get_user_by_email, try_except_SQLAlchemyError, try_except, query_first.
  destruct (fault_query_email env) as [[c m]|]; reflexivity.
Qed.

Lemma get_user_by_username_run env username w :
  get_user_by_username env username w =
    match fault_query_username env with
    | Some f => (Raise (query_error f), w)
    | None => (Return (find_by_username (table (db w)) username), w)
    end.
Proof.
  unfold get_user_by_username, try_except_SQLAlchemyError, try_except, query_first.
  destruct (fault_query_username env) as [[c m]|]; reflexivity.
Qed.

Lemma find_by_email_some tbl e u :
  find_by_email tbl (PyStr e) = Some u → u ∈ tbl ∧ um_email u = e.
Proof.
  unfold find_by_email. intros Hf. apply List.find_some in Hf as [Hin Hp].
  apply bool_decide_eq_true in Hp. split; [by apply list_elem_of_In | congruence].
Qed.

Lemma find_by_email_none tbl e :
  find_by_email tbl (PyStr e) = None ↔ ∀ u, u ∈ tbl → um_email u ≠ e.
Proof.
  unfold find_by_email. split.
  - intros Hf u Hin Heq. apply list_elem_of_In in Hin.
    pose proof (List.find_none _ _ Hf u Hin) as Hp. simpl in Hp.
    apply bool_decide_eq_false in Hp. congruence.
  - intros Hall. induction tbl as [|x tbl IH]; [done|]. simpl.
    rewrite bool_decide_eq_false_2.
    + apply IH. intros u Hu. apply Hall. by right.
    + intros [=]. eapply Hall; [by left | done].
Qed.

Lemma find_elem_of {A} (p : A → bool) l x : List.find p l = Some x → x ∈ l.
Proof. intros H. apply List.find_some in H as [H _]. by apply list_elem_of_In. Qed.

(** ** The scoped session *)

Lemma get_db_run {A} (body : M A) w :
  get_db body w =
    let w0 := {| db := {| table := table (db w); pending := []; closed := false |};
                 log := log w |} in
    ((body w0).1,
     {| db := {| table := table (db (body w0).2); pending := []; closed := true |};
        log := log (body w0).2 |}).
Proof.
  unfold get_db, try_finally, SessionLocal, db_close, with_db, mbind, M_bind. simpl.
  destruct (body _) as [r w']. reflexivity.
Qed.

(** ** Running [create_user] *)

Lemma data_of_row_of k d : data_of (row_of k d) = d.
Proof. by destruct d. Qed.

Lemma insert_all_snoc tbl ds d :
  insert_all tbl (ds ++ [d]) =
    insert_all tbl ds ++ [row_of (fresh_id (insert_all tbl ds)) d].
Proof. unfold insert_all. by rewrite foldl_app. Qed.

Lemma refresh_finds_new_row tbl k d :
  last (filter (λ u, data_of u = d) (tbl ++ [row_of k d])) = Some (row_of k d).
Proof.
  rewrite filter_app, filter_cons_True by apply data_of_row_of.
  rewrite filter_nil. apply last_snoc.
Qed.

Lemma create_user_run env d w :
  create_user env d w =
    match fault_commit env with
    | Some f => (Raise (create_error f), set_db (rolled_back (db w)) w)
    | None =>
        match fault_refresh env with
        | Some f => (Raise (create_error f), set_db (inserted (db w) d) w)
        | None => (Return (new_row (db w) d), set_db (inserted (db w) d) w)
        end
    end.
Proof.
  unfold create_user, try_except_SQLAlchemyError, try_except, db_add, db_commit,
    db_refresh, db_rollback, with_db, get_table, flush, mbind, M_bind, mret, M_ret.
  simpl.
  destruct (fault_commit env) as [[c m]|]; [reflexivity|]. simpl.
  destruct (fault_refresh env) as [[c m]|]; simpl; rewrite !insert_all_snoc;
    [reflexivity|].
  rewrite refresh_finds_new_row. reflexivity.
Qed.

(** In a fresh session the commit appends exactly the new row. *)
Lemma inserted_fresh s d :
  pending s = [] →
  inserted s d =
    {| table := table s ++ [row_of (fresh_id (table s)) d]; pending := [];
       closed := closed s |}
  ∧ new_row s d = row_of (fresh_id (table s)) d.
Proof. unfold inserted, new_row. intros ->. done. Qed.

(** Whatever fails inside [create_user], no partial record is left: in a
    fresh session the table afterwards is the old one, or the old one with
    the complete new row. *)
Lemma create_user_all_or_nothing env d w :
  pending (db w) = [] →
  pending (db (create_user env d w).2) = [] ∧
  (table (db (create_user env d w).2) = table (db w) ∨
   table (db (create_user env d w).2) =
     table (db w) ++ [row_of (fresh_id (table (db w))) d]).
Proof.
  intros Hp. rewrite create_user_run.
  destruct (inserted_fresh (db w) d Hp) as [Hi _].
  destruct (fault_commit env); [|destruct (fault_refresh env)];
    unfold set_db; cbn [fst snd db]; rewrite ?Hi; cbn; auto.
Qed.

(** When the commit itself fails, the rollback leaves the table untouched. *)
Lemma create_user_commit_failure env d w f :
  fault_commit env = Some f →
  create_user env d w = (Raise (create_error f), set_db (rolled_back (db w)) w).
Proof. intros Hc. rewrite create_user_run, Hc. reflexivity. Qed.

(** ** Running the handlers *)

Section Login.
Context {security : Security}.
Variable env : Env.
Hypothesis query_ok : fault_query_email env = None.

Lemma login_unknown_email c w :
  find_by_email (table (db w)) (PyStr (uc_email c)) = None →
  login env c w =
    (Raise invalid_credentials,
     logged ERROR ("Error en login: " +:+ str invalid_credentials)
       (logged WARNING ("Intento de login fallido para el email: " +:+ uc_email c)
          (logged INFO ("Intento de login para el email: " +:+ uc_email c) w))).
Proof.
  intros Hnone.
  unfold login, try_except, mbind, M_bind, logger.info, emit. simpl.
  rewrite get_user_by_email_run, query_ok. simpl. rewrite Hnone. reflexivity.
Qed.

Lemma login_wrong_password c u w :
  find_by_email (table (db w)) (PyStr (uc_email c)) = Some u →
  verify_password (uc_password c) (um_hashed_password u) = Return false →
  login env c w =
    (Raise invalid_credentials,
     logged ERROR ("Error en login: " +:+ str invalid_credentials)
       (logged WARNING ("Intento de login fallido para el email: " +:+ uc_email c)
          (logged INFO ("Intento de login para el email: " +:+ uc_email c) w))).
Proof.
  intros Hsome Hver.
  unfold login, try_except, mbind, M_bind, logger.info, emit, lift. simpl.
  rewrite get_user_by_email_run, query_ok. simpl. rewrite Hsome, Hver. reflexivity.
Qed.

Lemma login_success c u w :
  find_by_email (table (db w)) (PyStr (uc_email c)) = Some u →
  verify_password (uc_password c) (um_hashed_password u) = Return true →
  login env c w =
    (Return {| access_token :=
                 create_access_token (cfg env) (now env)
                   {[ "sub" := PyStr (um_email u) ]}
                   (timedelta_minutes (ACCESS_TOKEN_EXPIRE_MINUTES (cfg env)));
               token_type := "bearer" |},
     logged INFO ("Login exitoso para el email: " +:+ uc_email c)
       (logged INFO ("Intento de login para el email: " +:+ uc_email c) w)).
Proof.
  intros Hsome Hver.
  unfold login, try_except, mbind, M_bind, logger.info, emit, lift. simpl.
  rewrite get_user_by_email_run, query_ok. simpl. rewrite Hsome, Hver. reflexivity.
Qed.
End Login.

Lemma get_current_user_run {security : Security} env tok w :
  get_current_user env tok w =
    let failed e := (Raise e, logged ERROR ("Error en autenticación: " +:+ str e) w) in
    match decode_token (cfg env) (now env) tok with
    | Raise e => failed e
    | Return claims =>
        match fault_query_email env with
        | Some f => failed (query_error f)
        | None =>
            match find_by_email (table (db w)) (default PyNone (claims !! "sub")) with
            | None => failed user_not_found
            | Some u => (Return u, w)
            end
        end
    end.
Proof.
  unfold get_current_user, try_except, mbind, M_bind, lift. simpl.
  destruct (decode_token _ _ _) as [claims|e]; [|reflexivity].
  rewrite get_user_by_email_run.
  destruct (fault_query_email env) as [f|]; [reflexivity|].
  destruct (find_by_email _ _); reflexivity.
Qed.

Lemma register_user_run {security : Security} env user w :
  register_user env user w =
    let w1 := logged INFO ("Intento de registro para el email: " +:+ uc_email user) w in
    let failed e w' :=
      (Raise e, logged ERROR ("Error en registro de usuario: " +:+ str e) w') in
    let d := user_data_of env user in
    match fault_query_email env with
    | Some f => failed (query_error f) w1
    | None =>
    match find_by_email (table (db w)) (PyStr (uc_email user)) with
    | Some _ =>
        failed duplicate_email
          (logged WARNING
             ("Intento de registro con email duplicado: " +:+ uc_email user) w1)
    | None =>
    match fault_query_username env with
    | Some f => failed (query_error f) w1
    | None =>
    match find_by_username (table (db w)) (uc_username user) with
    | Some _ =>
        failed duplicate_username
          (logged WARNING
             ("Intento de registro con username duplicado: " +:+ uc_username user) w1)
    | None =>
    match fault_commit env with
    | Some f => failed (create_error f) (set_db (rolled_back (db w)) w1)
    | None =>
    match fault_refresh env with
    | Some f => failed (create_error f) (set_db (inserted (db w) d) w1)
    | None =>
        (Return (new_row (db w) d),
         logged INFO ("Usuario registrado exitosamente: " +:+ uc_email user)
           (set_db (inserted (db w) d) w1))
    end end end end end end.
Proof.
  cbv zeta.
  unfold register_user, try_except. rewrite bind_run.
  unfold logger.info at 1. unfold emit at 1. rewrite bind_run.
  rewrite get_user_by_email_run. simpl db.
  destruct (fault_query_email env) as [f|]; [reflexivity|].
  fold (logged INFO ("Intento de registro para el email: " +:+ uc_email user) w).
  destruct (find_by_email _ _); [reflexivity|].
  rewrite bind_run, get_user_by_username_run. simpl db.
  destruct (fault_query_username env) as [f|]; [reflexivity|].
  destruct (find_by_username _ _); [reflexivity|].
  rewrite bind_run, create_user_run. simpl db.
  fold (user_data_of env user).
  destruct (fault_commit env) as [f|]; [reflexivity|].
  destruct (fault_refresh env) as [f|]; reflexivity.
Qed.

(** ** The scenario, evaluated *)

Example register_alice :
  post_register (security := Closed.closed_security) Closed.env0 Closed.alice Closed.world0 =
    (Return {| ur_email := "a@x.com"; ur_username := "alice"; ur_id := 1;
               ur_is_active := true |}, Scenario.world1)
  ∧ table (db Scenario.world1) = [Scenario.alice_row].
Proof. split; vm_compute; reflexivity. Qed.

Example register_bob_duplicate_email :
  (post_register (security := Closed.closed_security)
     Closed.env0 Closed.bob Scenario.world1).1 = Raise duplicate_email.
Proof. vm_compute. reflexivity. Qed.

Example login_alice :
  (post_login (security := Closed.closed_security)
     Closed.env0 Closed.alice Scenario.world1).1 =
    Return {| access_token := Scenario.token_alice; token_type := "bearer" |}.
Proof. vm_compute. reflexivity. Qed.

Example resolve_alice :
  (get_users_me (security := Closed.closed_security)
     Scenario.env_soon Scenario.token_alice Scenario.world1).1 =
    Return {| ur_email := "a@x.com"; ur_username := "alice"; ur_id := 1;
              ur_is_active := true |}.
Proof. vm_compute. reflexivity. Qed.

Example resolve_alice_expired :
  (get_users_me (security := Closed.closed_security)
     Scenario.env_late Scenario.token_alice Scenario.world1).1 = Raise InvalidToken.
Proof. vm_compute. reflexivity. Qed.

(** ** Login *)

(** C1. For every state of the store, a login whose email matches no stored
    user and a login with a stored user's email and a password that
    [verify_password] rejects raise the same exception, HTTP 401 with detail
    "Credenciales incorrectas" and the same header; the handler and the route
    give the caller nothing else, and neither call changes the store. *)
Theorem login_rejections_identical {security : Security} env w c1 c2 u :
  fault_query_email env = None →
  find_by_email (table (db w)) (PyStr (uc_email c1)) = None →
  find_by_email (table (db w)) (PyStr (uc_email c2)) = Some u →
  verify_password (uc_password c2) (um_hashed_password u) = Return false →
  (login env c1 w).1 = Raise invalid_credentials ∧
  (login env c2 w).1 = Raise invalid_credentials ∧
  (post_login env c1 w).1 = (post_login env c2 w).1 ∧
  db (login env c1 w).2 = db w ∧
  db (login env c2 w).2 = db w ∧
  db (post_login env c1 w).2 = db (post_login env c2 w).2.
Proof.
  intros Hq Hnone Hsome Hver.
  set (w0 := {| db := {| table := table (db w); pending := []; closed := false |};
                log := log w |}).
  pose proof (login_unknown_email env Hq c1 w Hnone) as E1.
  pose proof (login_wrong_password env Hq c2 u w Hsome Hver) as E2.
  pose proof (login_unknown_email env Hq c1 w0 Hnone) as F1.
  pose proof (login_wrong_password env Hq c2 u w0 Hsome Hver) as F2.
  unfold post_login. rewrite !get_db_run. cbv zeta. fold w0.
  rewrite E1, E2, F1, F2. repeat split.
Qed.

Lemma login_rejections_identical_witness :
  (login (security := Closed.closed_security)
     Closed.env0 Scenario.nobody Scenario.world1).1 = Raise invalid_credentials ∧
  (login (security := Closed.closed_security)
     Closed.env0 Scenario.mallory Scenario.world1).1 = Raise invalid_credentials.
Proof.
  pose proof (login_rejections_identical (security := Closed.closed_security)
                Closed.env0 Scenario.world1 Scenario.nobody Scenario.mallory
                Scenario.alice_row) as H.
  destruct H as (H1 & H2 & _); [vm_compute; reflexivity ..|].
  exact (conj H1 H2).
Defined.

(** C6. A login with a stored user's email and a password that
    [verify_password] accepts returns a bearer token made by
    [create_access_token] from the claim [sub] = that user's email, which is
    the submitted one, and a lifetime of [ACCESS_TOKEN_EXPIRE_MINUTES] minutes
    of the loaded settings; the default of that setting is 30.  With the
    token service of the specification the token carries [sub], [iat] = now
    and [exp] = now + that lifetime. *)
Theorem login_issues_token {security : Security} env w c u :
  fault_query_email env = None →
  find_by_email (table (db w)) (PyStr (uc_email c)) = Some u →
  verify_password (uc_password c) (um_hashed_password u) = Return true →
  let ttl := timedelta_minutes (ACCESS_TOKEN_EXPIRE_MINUTES (cfg env)) in
  (login env c w).1 =
    Return {| access_token :=
                create_access_token (cfg env) (now env)
                  {[ "sub" := PyStr (um_email u) ]} ttl;
              token_type := "bearer" |} ∧
  um_email u = uc_email c ∧
  ttl = 60 * ACCESS_TOKEN_EXPIRE_MINUTES (cfg env) ∧
  ACCESS_TOKEN_EXPIRE_MINUTES settings = 30 ∧
  ∀ mac, ∃ claims signature,
    security.create_access_token mac (cfg env) (now env)
      {[ "sub" := PyStr (um_email u) ]} ttl
      = Jwt (ALGORITHM (cfg env)) claims signature ∧
    claims !! "sub" = Some (PyStr (uc_email c)) ∧
    claims !! "iat" = Some (PyInt (now env)) ∧
    claims !! "exp" = Some (PyInt (now env + ttl)).
Proof.
  intros Hq Hsome Hver ttl.
  destruct (find_by_email_some _ _ _ Hsome) as [_ Hemail].
  rewrite (login_success env Hq c u w Hsome Hver).
  split; [reflexivity|]. split; [exact Hemail|].
  split; [unfold ttl, timedelta_minutes; lia|]. split; [reflexivity|].
  intros mac. eexists _, _. split; [reflexivity|]. rewrite <- Hemail.
  split; [|split]; by simplify_map_eq.
Qed.

Lemma login_issues_token_witness :
  (login (security := Closed.closed_security)
     Closed.env0 Closed.alice Scenario.world1).1 =
    Return {| access_token := Scenario.token_alice; token_type := "bearer" |}.
Proof.
  destruct (login_issues_token (security := Closed.closed_security)
              Closed.env0 Scenario.world1 Closed.alice Scenario.alice_row)
    as (H & _); [vm_compute; reflexivity ..|].
  exact H.
Defined.

(** ** Resolving the current user *)

(** C2, as the code has it.  [get_current_user] rejects in every failure
    case and leaves the store as it was, but not with one outcome: when
    [decode_token] fails (malformed, bad signature or expired) its exception
    reaches the caller unchanged, and when the subject matches no stored user
    the caller gets HTTP 401 with detail "Usuario no encontrado".  The route
    [GET /users/me] passes both on as they are. *)
Theorem get_current_user_rejections {security : Security} env w tok :
  fault_query_email env = None →
  (∀ e, decode_token (cfg env) (now env) tok = Raise e →
        (get_current_user env tok w).1 = Raise e ∧
        (get_users_me env tok w).1 = Raise e) ∧
  (∀ claims, decode_token (cfg env) (now env) tok = Return claims →
        find_by_email (table (db w)) (default PyNone (claims !! "sub")) = None →
        (get_current_user env tok w).1 = Raise user_not_found ∧
        (get_users_me env tok w).1 = Raise user_not_found) ∧
  db (get_current_user env tok w).2 = db w.
Proof.
  intros Hq. unfold get_users_me. rewrite get_db_run. cbv zeta.
  rewrite bind_run, !get_current_user_run. cbv zeta.
  rewrite Hq. split; [|split].
  - intros e ->. done.
  - intros claims -> Hnone. simpl in *. rewrite Hnone. done.
  - destruct (decode_token _ _ _); [destruct (find_by_email _ _)|]; reflexivity.
Qed.

Lemma get_current_user_rejections_witness :
  (get_current_user (security := Closed.closed_security)
     Scenario.env_late Scenario.token_alice Scenario.world1).1 = Raise InvalidToken.
Proof.
  pose proof (get_current_user_rejections (security := Closed.closed_security)
                Scenario.env_late Scenario.world1 Scenario.token_alice) as H.
  destruct H as (H1 & _); [vm_compute; reflexivity|].
  apply (H1 InvalidToken). vm_compute. reflexivity.
Defined.

(** The two rejections coincide exactly when [decode_token] itself raises
    the exception of the unknown-subject branch. *)
Lemma rejections_coincide_iff {security : Security} env w tok1 tok2 e claims :
  fault_query_email env = None →
  decode_token (cfg env) (now env) tok1 = Raise e →
  decode_token (cfg env) (now env) tok2 = Return claims →
  find_by_email (table (db w)) (default PyNone (claims !! "sub")) = None →
  (get_current_user env tok1 w).1 = (get_current_user env tok2 w).1 ↔ e = user_not_found.
Proof.
  intros Hq H1 H2 Hnone. rewrite !get_current_user_run. cbv zeta.
  rewrite H1, H2, Hq, Hnone. cbn [fst]. split; [by intros [=] | by intros ->].
Qed.

(** C2 as stated fails.  With the token service of the specification, a
    token whose expiry has elapsed is rejected with [InvalidToken], and a
    valid token whose subject matches no stored user with HTTP 401 "Usuario
    no encontrado": the caller can tell the two apart. *)
Lemma get_current_user_rejections_differ :
  security.decode_token Closed.mac settings 5000 Scenario.token_alice = Raise InvalidToken ∧
  (∃ claims,
     security.decode_token Closed.mac settings 5000 Scenario.token_ghost = Return claims ∧
     find_by_email (table (db Scenario.world1)) (default PyNone (claims !! "sub")) = None) ∧
  (get_current_user (security := Closed.closed_security)
     Scenario.env_late Scenario.token_alice Scenario.world1).1 = Raise InvalidToken ∧
  (get_current_user (security := Closed.closed_security)
     Scenario.env_late Scenario.token_ghost Scenario.world1).1 = Raise user_not_found ∧
  (get_current_user (security := Closed.closed_security)
     Scenario.env_late Scenario.token_alice Scenario.world1).1 ≠
  (get_current_user (security := Closed.closed_security)
     Scenario.env_late Scenario.token_ghost Scenario.world1).1.
Proof.
  split; [vm_compute; reflexivity|].
  split; [eexists; split; vm_compute; reflexivity|].
  split; [vm_compute; reflexivity|].
  split; [vm_compute; reflexivity|].
  vm_compute. discriminate.
Qed.

(** ** Registration *)

(** C3. When the lookup by email finds a user, [register_user] raises HTTP
    400 "Email ya registrado", whatever the lookup by username would find;
    when no user has the email and the lookup by username finds one, it
    raises HTTP 400 "Nombre de usuario ya registrado".  In both cases the
    session, and with it the table, is as it was before the call. *)
Theorem register_user_duplicates {security : Security} env user w :
  fault_query_email env = None →
  (∀ u, find_by_email (table (db w)) (PyStr (uc_email user)) = Some u →
        (register_user env user w).1 = Raise duplicate_email ∧
        db (register_user env user w).2 = db w) ∧
  (∀ u, find_by_email (table (db w)) (PyStr (uc_email user)) = None →
        fault_query_username env = None →
        find_by_username (table (db w)) (uc_username user) = Some u →
        (register_user env user w).1 = Raise duplicate_username ∧
        db (register_user env user w).2 = db w).
Proof.
  intros Hq. rewrite register_user_run. cbv zeta. rewrite Hq.
  split.
  - intros u ->. done.
  - intros u -> -> ->. done.
Qed.

Lemma register_user_duplicates_witness :
  (register_user (security := Closed.closed_security)
     Closed.env0 Closed.bob Scenario.world1).1 = Raise duplicate_email ∧
  (register_user (security := Closed.closed_security)
     Closed.env0 Scenario.carol Scenario.world1).1 = Raise duplicate_username.
Proof.
  split.
  - destruct (register_user_duplicates (security := Closed.closed_security)
                Closed.env0 Closed.bob Scenario.world1) as [H _];
      [vm_compute; reflexivity ..|].
    apply (H Scenario.alice_row). vm_compute. reflexivity.
  - destruct (register_user_duplicates (security := Closed.closed_security)
                Closed.env0 Scenario.carol Scenario.world1) as [_ H];
      [vm_compute; reflexivity ..|].
    apply (H Scenario.alice_row); vm_compute; reflexivity.
Defined.

(** C8. Whenever [register_user] returns, in a fresh session, the returned
    user is the row the store was given: the submitted email and username, the
    next id, [get_password_hash] of the submitted password as its
    [hashed_password], and [is_active] true.  The table is the old one with
    that row appended, and the log gains the two messages that name the
    email; the plaintext reaches neither. *)
Theorem register_user_persists_hash {security : Security} env user w :
  pending (db w) = [] →
  match register_user env user w with
  | (Return new_user, w') =>
      let row := {| um_id := fresh_id (table (db w));
                    um_email := uc_email user;
                    um_username := uc_username user;
                    um_hashed_password :=
                      get_password_hash (salt env) (uc_password user);
                    um_is_active := true |} in
      new_user = row ∧
      table (db w') = table (db w) ++ [row] ∧
      pending (db w') = [] ∧
      log w' = log w ++
        [ {| levelname := INFO;
             message := "Intento de registro para el email: " +:+ uc_email user |};
          {| levelname := INFO;
             message := "Usuario registrado exitosamente: " +:+ uc_email user |} ]
  | (Raise _, _) => True
  end.
Proof.
  intros Hp. rewrite register_user_run. cbv zeta.
  destruct (inserted_fresh (db w) (user_data_of env user) Hp) as [Hi Hr].
  case_answers; try exact I.
  rewrite Hr. unfold logged, set_db. cbn [db log]. rewrite Hi. cbn [table pending].
  rewrite <- !app_assoc. done.
Qed.

Lemma register_user_persists_hash_witness :
  pending (db Closed.world0) = [] ∧
  table (db (register_user (security := Closed.closed_security)
               Closed.env0 Closed.alice Closed.world0).2) = [Scenario.alice_row].
Proof.
  split; [reflexivity|].
  pose proof (register_user_persists_hash (security := Closed.closed_security)
                Closed.env0 Closed.alice Closed.world0 eq_refl) as H.
  vm_compute in H. destruct H as (_ & H & _). exact H.
Defined.

(** ** Store failures during registration *)

(** C4 at its failing input.  [dave] passes both duplicate checks; the
    commit succeeds and [db.refresh] raises.  [create_user] rolls back,
    which undoes nothing, and raises HTTP 500: the caller is told the
    creation failed while the table holds the new row. *)
Theorem register_user_refresh_failure_keeps_row :
  find_by_email (table (db Scenario.world1)) (PyStr "d@x.com") = None ∧
  find_by_username (table (db Scenario.world1)) "dave" = None ∧
  (register_user (security := Closed.closed_security)
     Scenario.env_refresh_fails Scenario.dave Scenario.world1).1 =
    Raise (HTTPException 500
             "Error al crear el usuario: server closed the connection unexpectedly" None) ∧
  table (db (register_user (security := Closed.closed_security)
               Scenario.env_refresh_fails Scenario.dave Scenario.world1).2) =
    [Scenario.alice_row; Scenario.dave_row] ∧
  table (db Scenario.world1) = [Scenario.alice_row].
Proof. repeat split; vm_compute; reflexivity. Qed.

(** C5, as the code has it.  When the commit raises a [SQLAlchemyError] of
    any class, a unique-constraint [IntegrityError] included, after both
    duplicate checks passed, [register_user] raises HTTP 500 with detail
    "Error al crear el usuario: " followed by the store's message; the table
    is the one before the call and nothing is left pending. *)
Theorem register_user_commit_failure {security : Security} env user w cls msg :
  fault_query_email env = None →
  find_by_email (table (db w)) (PyStr (uc_email user)) = None →
  fault_query_username env = None →
  find_by_username (table (db w)) (uc_username user) = None →
  fault_commit env = Some (cls, msg) →
  (register_user env user w).1 =
    Raise (HTTPException 500 ("Error al crear el usuario: " +:+ msg) None) ∧
  table (db (register_user env user w).2) = table (db w) ∧
  pending (db (register_user env user w).2) = [].
Proof.
  intros Hqe He Hqu Hu Hc. rewrite register_user_run. cbv zeta.
  rewrite Hqe, He, Hqu, Hu, Hc. done.
Qed.

Lemma register_user_commit_failure_witness :
  (register_user (security := Closed.closed_security)
     Scenario.env_unique_violation Scenario.dave Scenario.world1).1 =
    Raise (HTTPException 500
             "Error al crear el usuario: UNIQUE constraint failed: users.email" None) ∧
  table (db (register_user (security := Closed.closed_security)
               Scenario.env_unique_violation Scenario.dave Scenario.world1).2) =
    [Scenario.alice_row].
Proof.
  destruct (register_user_commit_failure (security := Closed.closed_security)
              Scenario.env_unique_violation Scenario.dave Scenario.world1
              IntegrityError "UNIQUE constraint failed: users.email")
    as (H1 & H2 & _); [vm_compute; reflexivity ..|].
  exact (conj H1 H2).
Defined.

(** C5 as stated fails.  The insert of [dave] hits the unique constraint on
    the email; the caller gets HTTP 500, which is neither of the two
    duplicate rejections of the pre-checks. *)
Lemma register_user_unique_violation_is_500 :
  let outcome :=
    (register_user (security := Closed.closed_security)
       Scenario.env_unique_violation Scenario.dave Scenario.world1).1 in
  outcome = Raise (HTTPException 500
                     "Error al crear el usuario: UNIQUE constraint failed: users.email"
                     None) ∧
  outcome ≠ Raise duplicate_email ∧
  outcome ≠ Raise duplicate_username.
Proof. cbv zeta. repeat split; vm_compute; (reflexivity || discriminate). Qed.

(** ** The token service of the specification *)

Section TokenService.
Variable mac : string → string → gmap string pyval → string.
Variables (cfg : Settings) (now : Z) (sub : string) (ttl : Z).

Lemma issue_claims :
  ∃ claims,
    security.issue mac cfg now sub ttl
      = Jwt (ALGORITHM cfg) claims (mac (SECRET_KEY cfg) (ALGORITHM cfg) claims) ∧
    claims !! "sub" = Some (PyStr sub) ∧
    claims !! "iat" = Some (PyInt now) ∧
    claims !! "exp" = Some (PyInt (now + ttl)).
Proof.
  eexists. split; [reflexivity|]. split; [|split]; by simplify_map_eq.
Qed.

Lemma decode_issue_at now' :
  security.decode_token mac cfg now' (security.issue mac cfg now sub ttl) =
    if bool_decide (now' < now + ttl)
    then Return (<["exp" := PyInt (now + ttl)]>
                   (<["iat" := PyInt now]> {[ "sub" := PyStr sub ]}))
    else Raise InvalidToken.
Proof.
  unfold security.issue, security.create_access_token, security.decode_token.
  rewrite !bool_decide_eq_true_2 by reflexivity. cbn [andb].
  rewrite lookup_insert_eq. reflexivity.
Qed.

(** Once the expiry has elapsed the token is rejected. *)
Lemma decode_expired now' :
  now + ttl ≤ now' →
  security.decode_token mac cfg now' (security.issue mac cfg now sub ttl)
    = Raise InvalidToken.
Proof. intros H. rewrite decode_issue_at, bool_decide_eq_false_2; [done | lia]. Qed.
End TokenService.

(** C7. For every subject and every positive ttl, decoding a token at any
    time from its issue up to, and not including, its expiry succeeds, and
    the claim set it returns has [sub] equal to the subject the token was
    issued for. *)
Theorem decode_issue_roundtrip mac cfg now now' sub ttl :
  0 < ttl →
  now ≤ now' < now + ttl →
  ∃ claims,
    security.decode_token mac cfg now' (security.issue mac cfg now sub ttl)
      = Return claims ∧
    claims !! "sub" = Some (PyStr sub).
Proof.
  intros _ [_ Hlt]. rewrite decode_issue_at, bool_decide_eq_true_2 by exact Hlt.
  eexists. split; [reflexivity|]. by simplify_map_eq.
Qed.

Lemma decode_issue_roundtrip_witness :
  ∃ claims,
    security.decode_token Closed.mac settings 1000
      (security.issue Closed.mac settings 1000 "a@x.com" 1800) = Return claims ∧
    claims !! "sub" = Some (PyStr "a@x.com").
Proof.
  apply (decode_issue_roundtrip Closed.mac settings 1000 1000 "a@x.com" 1800); lia.
Defined.

(** ** Release of the session *)

(** C9. Whatever the body run under [get_db] does, return a value or raise,
    the session is closed afterwards with nothing pending, and the value or
    the exception of the body is what the caller gets.  Each of the three
    routes runs under [get_db], so each leaves the session closed. *)
Theorem get_db_releases_session {security : Security} :
  (∀ A (body : M A) w,
     closed (db (get_db body w).2) = true ∧
     pending (db (get_db body w).2) = [] ∧
     ∃ w0, closed (db w0) = false ∧ (get_db body w).1 = (body w0).1) ∧
  (∀ env user w, closed (db (post_register env user w).2) = true) ∧
  (∀ env c w, closed (db (post_login env c w).2) = true) ∧
  (∀ env tok w, closed (db (get_users_me env tok w).2) = true).
Proof.
  repeat split; intros; unfold post_register, post_login, get_users_me;
    rewrite ?get_db_run; try reflexivity.
  eexists. split; [|reflexivity]. reflexivity.
Qed.

(** ** What the public responses show *)





(** * Further properties of the code *)

(** ** crud.py: the lookups *)

Lemma find_first_split {A} (p : A → bool) l x :
  List.find p l = Some x →
  ∃ l1 l2, l = l1 ++ x :: l2 ∧ p x = true ∧ ∀ y, y ∈ l1 → p y = false.
Proof.
  induction l as [|a l IH]; [done|]. cbn. destruct (p a) eqn:Hpa.
  - intros [= ->]. exists [], l. split; [done|]. split; [done|].
    intros y Hy. by apply elem_of_nil in Hy.
  - intros Hf. destruct (IH Hf) as (l1 & l2 & -> & Hpx & Hbefore).
    exists (a :: l1), l2. split; [done|]. split; [done|].
    intros y [->|Hy]%elem_of_cons; auto.
Qed.

Lemma find_none_all {A} (p : A → bool) l :
  List.find p l = None → ∀ y, y ∈ l → p y = false.
Proof.
  intros Hf y Hy. apply list_elem_of_In in Hy. exact (List.find_none p l Hf y Hy).
Qed.

(** [get_user_by_email] reads and never writes.  It returns the first row,
    in table order, whose email is the one asked for; it returns nothing
    only when no row has that email; it raises only when the query failed,
    and then HTTP 500 with the store's message. *)
Theorem get_user_by_email_first_match env email w :
  (get_user_by_email env (PyStr email) w).2 = w ∧
  match (get_user_by_email env (PyStr email) w).1 with
  | Return (Some u) =>
      ∃ l1 l2, table (db w) = l1 ++ u :: l2 ∧ um_email u = email ∧
               ∀ v, v ∈ l1 → um_email v ≠ email
  | Return None => ∀ v, v ∈ table (db w) → um_email v ≠ email
  | Raise e =>
      ∃ f, fault_query_email env = Some f ∧
           e = HTTPException 500 ("Error al consultar la base de datos: " +:+ f.2) None
  end.
Proof.
  rewrite get_user_by_email_run.
  destruct (fault_query_email env) as [f|]; [split; [done | by exists f]|].
  split; [done|]. cbn [fst]. unfold find_by_email.
  destruct (List.find _ _) as [u|] eqn:Hf.
  - destruct (find_first_split _ _ _ Hf) as (l1 & l2 & Ht & Hu & Hbefore).
    exists l1, l2. split; [done|].
    apply bool_decide_eq_true in Hu. split; [congruence|].
    intros v Hv Heq. apply Hbefore in Hv. apply bool_decide_eq_false in Hv.
    congruence.
  - intros v Hv Heq. apply (find_none_all _ _ Hf) in Hv.
    apply bool_decide_eq_false in Hv. congruence.
Qed.

(** [get_user_by_username] likewise: read-only, first row with that
    username, nothing only when no row has it, HTTP 500 only when the query
    failed. *)
Theorem get_user_by_username_first_match env username w :
  (get_user_by_username env username w).2 = w ∧
  match (get_user_by_username env username w).1 with
  | Return (Some u) =>
      ∃ l1 l2, table (db w) = l1 ++ u :: l2 ∧ um_username u = username ∧
               ∀ v, v ∈ l1 → um_username v ≠ username
  | Return None => ∀ v, v ∈ table (db w) → um_username v ≠ username
  | Raise e =>
      ∃ f, fault_query_username env = Some f ∧
           e = HTTPException 500 ("Error al consultar la base de datos: " +:+ f.2) None
  end.
Proof.
  rewrite get_user_by_username_run.
  destruct (fault_query_username env) as [f|]; [split; [done | by exists f]|].
  split; [done|]. cbn [fst]. unfold find_by_username.
  destruct (List.find _ _) as [u|] eqn:Hf.
  - destruct (find_first_split _ _ _ Hf) as (l1 & l2 & Ht & Hu & Hbefore).
    exists l1, l2. split; [done|].
    apply bool_decide_eq_true in Hu. split; [done|].
    intros v Hv Heq. apply Hbefore in Hv. by apply bool_decide_eq_false in Hv.
  - intros v Hv Heq. apply (find_none_all _ _ Hf) in Hv.
    by apply bool_decide_eq_false in Hv.
Qed.

(** ** crud.py: rows under [create_user] *)

Lemma insert_all_extends tbl ds :
  ∃ new, insert_all tbl ds = tbl ++ new ∧ length new = length ds ∧
         data_of <$> new = ds.
Proof.
  revert tbl. induction ds as [|d ds IH]; intros tbl.
  - exists []. by rewrite app_nil_r.
  - cbn. destruct (IH (tbl ++ [row_of (fresh_id tbl) d])) as (new & Heq & Hlen & Hdata).
    exists (row_of (fresh_id tbl) d :: new).
    unfold insert_all in *. rewrite Heq, <- app_assoc. cbn.
    rewrite Hlen, Hdata, data_of_row_of. done.
Qed.

(** [create_user] never removes or rewrites a row: the table before the
    call is a prefix of the table after it, whatever fails.  Nothing is left
    pending, and a returned user is the last row of the table and carries
    the data it was given. *)
Theorem create_user_keeps_rows env d w :
  table (db w) `prefix_of` table (db (create_user env d w).2) ∧
  pending (db (create_user env d w).2) = [] ∧
  match (create_user env d w).1 with
  | Return u => last (table (db (create_user env d w).2)) = Some u ∧ data_of u = d
  | Raise _ => True
  end.
Proof.
  rewrite create_user_run.
  destruct (insert_all_extends (table (db w)) (pending (db w))) as (new & Heq & _).
  assert (table (db w) `prefix_of` table (inserted (db w) d)) as Hpre.
  { unfold inserted. cbn. rewrite Heq, <- app_assoc. by apply prefix_app_r. }
  destruct (fault_commit env); [|destruct (fault_refresh env)]; cbn;
    repeat split; try done.
  - apply last_snoc.
  - apply data_of_row_of.
Qed.

Lemma find_app_none {A} (p : A → bool) l x :
  List.find p l = None → p x = true → List.find p (l ++ [x]) = Some x.
Proof.
  induction l as [|a l IH]; cbn.
  - by intros _ ->.
  - destruct (p a); [done | exact IH].
Qed.

Lemma find_app_some {A} (p : A → bool) l k x :
  List.find p l = Some x → List.find p (l ++ k) = Some x.
Proof.
  induction l as [|a l IH]; cbn; [done|]. destruct (p a); [done | exact IH].
Qed.

(** Insert, then look up.  After [create_user] has returned in a fresh
    session, a lookup by the email it was given finds a user with that email,
    and a lookup by the username finds a user with that username; when no
    row had the email, or the username, before, the user found is the one
    [create_user] returned. *)
Theorem create_user_then_lookup env env' d w u w' :
  pending (db w) = [] →
  create_user env d w = (Return u, w') →
  fault_query_email env' = None →
  fault_query_username env' = None →
  (∃ v, (get_user_by_email env' (PyStr (ud_email d)) w').1 = Return (Some v) ∧
        um_email v = ud_email d ∧
        (find_by_email (table (db w)) (PyStr (ud_email d)) = None → v = u)) ∧
  (∃ v, (get_user_by_username env' (ud_username d) w').1 = Return (Some v) ∧
        um_username v = ud_username d ∧
        (find_by_username (table (db w)) (ud_username d) = None → v = u)).
Proof.
  intros Hp Hrun Hqe Hqu. rewrite create_user_run in Hrun.
  destruct (inserted_fresh (db w) d Hp) as [Hi Hr].
  destruct (fault_commit env); [done|]. destruct (fault_refresh env); [done|].
  injection Hrun as <- <-. rewrite Hr.
  rewrite get_user_by_email_run, get_user_by_username_run, Hqe, Hqu.
  unfold set_db. cbn [db fst]. rewrite Hi. cbn [table].
  set (row := row_of (fresh_id (table (db w))) d).
  assert (um_email row = ud_email d ∧ um_username row = ud_username d) as [He Hu]
    by done.
  split.
  - unfold find_by_email.
    destruct (List.find _ (table (db w))) as [v|] eqn:Hf.
    + exists v. split; [by rewrite (find_app_some _ _ _ _ Hf)|].
      split; [|done]. apply List.find_some in Hf as [_ Hv].
      apply bool_decide_eq_true in Hv. congruence.
    + exists row. split; [|done]. rewrite (find_app_none _ _ row Hf); [done|].
      apply bool_decide_eq_true. by rewrite He.
  - unfold find_by_username.
    destruct (List.find _ (table (db w))) as [v|] eqn:Hf.
    + exists v. split; [by rewrite (find_app_some _ _ _ _ Hf)|].
      split; [|done]. apply List.find_some in Hf as [_ Hv].
      by apply bool_decide_eq_true in Hv.
    + exists row. split; [|done]. rewrite (find_app_none _ _ row Hf); [done|].
      by apply bool_decide_eq_true.
Qed.

Lemma create_user_then_lookup_witness :
  ∃ v, (get_user_by_email Closed.env0 (PyStr "d@x.com") More.world2).1 = Return (Some v) ∧
       um_email v = "d@x.com".
Proof.
  destruct (create_user_then_lookup Closed.env0 Closed.env0 More.dave_data
              Scenario.world1 Scenario.dave_row More.world2)
    as [(v & H1 & H2 & _) _]; [vm_compute; reflexivity ..|].
  exists v. exact (conj H1 H2).
Defined.

(** ** main.py: what each handler does to the store and the log *)

Lemma login_run {security : Security} env c w :
  login env c w =
    let w1 := logged INFO ("Intento de login para el email: " +:+ uc_email c) w in
    let failed e w' := (Raise e, logged ERROR ("Error en login: " +:+ str e) w') in
    let rejected :=
      failed invalid_credentials
        (logged WARNING ("Intento de login fallido para el email: " +:+ uc_email c) w1) in
    match fault_query_email env with
    | Some f => failed (query_error f) w1
    | None =>
        match find_by_email (table (db w)) (PyStr (uc_email c)) with
        | None => rejected
        | Some u =>
            match verify_password (uc_password c) (um_hashed_password u) with
            | Raise e => failed e w1
            | Return false => rejected
            | Return true =>
                (Return {| access_token :=
                             create_access_token (cfg env) (now env)
                               {[ "sub" := PyStr (um_email u) ]}
                               (timedelta_minutes (ACCESS_TOKEN_EXPIRE_MINUTES (cfg env)));
                           token_type := "bearer" |},
                 logged INFO ("Login exitoso para el email: " +:+ uc_email c) w1)
            end
        end
    end.
Proof.
  cbv zeta. unfold login, try_except. rewrite bind_run.
  unfold logger.info at 1. unfold emit at 1. rewrite bind_run.
  rewrite get_user_by_email_run. simpl db.
  destruct (fault_query_email env) as [f|]; [reflexivity|].
  destruct (find_by_email _ _) as [u|]; [|reflexivity].
  rewrite bind_run. unfold lift at 1. rewrite bind_run.
  destruct (verify_password _ _) as [[]|e]; reflexivity.
Qed.

(** [login] and [get_current_user] never write to the store: whatever they
    return or raise, the session and its table are as before, and under
    their routes the table is as before. *)
Theorem login_and_get_current_user_read_only {security : Security} env c tok w :
  db (login env c w).2 = db w ∧
  db (get_current_user env tok w).2 = db w ∧
  table (db (post_login env c w).2) = table (db w) ∧
  table (db (get_users_me env tok w).2) = table (db w).
Proof.
  assert (∀ w, db (login env c w).2 = db w) as Hl.
  { intros w0. rewrite login_run. cbv zeta. case_answers; try done.
    destruct (verify_password _ _) as [[]|]; done. }
  assert (∀ w, db (get_current_user env tok w).2 = db w) as Hg.
  { intros w0. rewrite get_current_user_run. cbv zeta.
    destruct (decode_token _ _ _); case_answers; done. }
  split; [apply Hl|]. split; [apply Hg|].
  unfold post_login, get_users_me. rewrite !get_db_run. cbv zeta. cbn [snd db table].
  split.
  - by rewrite Hl.
  - rewrite bind_run.
    destruct (get_current_user env tok _) as [[u|e] w1] eqn:Hrun.
    + pose proof (Hg {| db := {| table := table (db w); pending := []; closed := false |};
                        log := log w |}) as Hdb.
      rewrite Hrun in Hdb. cbn in Hdb.
      unfold read_users_me, try_except, logger.info, emit. rewrite !bind_run.
      cbn. by rewrite Hdb.
    + pose proof (Hg {| db := {| table := table (db w); pending := []; closed := false |};
                        log := log w |}) as Hdb.
      rewrite Hrun in Hdb. cbn in Hdb. cbn. by rewrite Hdb.
Qed.

Lemma find_by_username_none tbl n :
  find_by_username tbl n = None → ∀ u, u ∈ tbl → um_username u ≠ n.
Proof.
  intros Hf u Hu. apply (find_none_all _ _ Hf) in Hu. by apply bool_decide_eq_false in Hu.
Qed.

(** [register_user] never removes or rewrites a row: the table before the
    call is a prefix of the table after it, whatever the outcome, and the call
    adds at most the objects that were pending and one more. *)
Theorem register_user_keeps_rows {security : Security} env user w :
  table (db w) `prefix_of` table (db (register_user env user w).2) ∧
  (length (table (db (register_user env user w).2))
     ≤ length (table (db w)) + length (pending (db w)) + 1)%nat.
Proof.
  rewrite register_user_run. cbv zeta.
  destruct (insert_all_extends (table (db w)) (pending (db w))) as (new & Heq & Hlen & _).
  assert (table (db w) `prefix_of` table (inserted (db w) (user_data_of env user))
          ∧ (length (table (inserted (db w) (user_data_of env user)))
               ≤ length (table (db w)) + length (pending (db w)) + 1)%nat) as [Hpre Hle].
  { unfold inserted. cbn. rewrite Heq, <- app_assoc, !length_app, Hlen. cbn.
    split; [by apply prefix_app_r | lia]. }
  case_answers; cbn; (split; [done || exact Hpre | lia || exact Hle]).
Qed.

(** [register_user] keeps emails and usernames unique: if each occurs at
    most once in the table and the session is fresh, the same holds after the
    call, whatever it returns or raises and whatever the store does. *)
Theorem register_user_preserves_uniqueness {security : Security} env user w :
  pending (db w) = [] →
  NoDup (um_email <$> table (db w)) →
  NoDup (um_username <$> table (db w)) →
  NoDup (um_email <$> table (db (register_user env user w).2)) ∧
  NoDup (um_username <$> table (db (register_user env user w).2)).
Proof.
  intros Hp Hne Hnu. rewrite register_user_run. cbv zeta.
  destruct (inserted_fresh (db w) (user_data_of env user) Hp) as [Hi _].
  destruct (fault_query_email env); [done|].
  destruct (find_by_email _ _) eqn:Hfe; [done|].
  destruct (fault_query_username env); [done|].
  destruct (find_by_username _ _) eqn:Hfu; [done|].
  destruct (fault_commit env); [done|].
  assert (NoDup (um_email <$> table (inserted (db w) (user_data_of env user)))
          ∧ NoDup (um_username <$> table (inserted (db w) (user_data_of env user))))
    as Hins.
  { rewrite Hi. cbn [table]. rewrite !fmap_app. split.
    - apply NoDup_app. split; [done|]. split; [|apply NoDup_singleton].
      intros e He He'. cbn in He'. apply list_elem_of_singleton in He'.
      apply list_elem_of_fmap in He as (u & -> & Hu).
      by apply (proj1 (find_by_email_none _ _) Hfe u Hu).
    - apply NoDup_app. split; [done|]. split; [|apply NoDup_singleton].
      intros n Hn Hn'. cbn in Hn'. apply list_elem_of_singleton in Hn'.
      apply list_elem_of_fmap in Hn as (u & -> & Hu).
      by apply (find_by_username_none _ _ Hfu u Hu). }
  destruct (fault_refresh env); exact Hins.
Qed.

Lemma register_user_preserves_uniqueness_witness :
  NoDup (um_email <$> table (db (register_user (security := Closed.closed_security)
           Closed.env0 Scenario.dave Scenario.world1).2)).
Proof.
  refine (proj1 (register_user_preserves_uniqueness (security := Closed.closed_security)
                   Closed.env0 Scenario.dave Scenario.world1 eq_refl _ _));
    vm_compute; apply NoDup_singleton.
Defined.

(** Unless the insert itself fails, the log does not depend on the
    submitted password: two registrations that differ only in the password
    write the same lines, whether they are rejected, run into a failed lookup
    or succeed.  (When the commit or the read-back fails, the ERROR line
    quotes the store's message, which is the store's to word.) *)
Theorem register_user_log_ignores_password {security : Security} env user pw w :
  fault_commit env = None →
  fault_refresh env = None →
  log (register_user env (set_password pw user) w).2 = log (register_user env user w).2.
Proof.
  intros Hc Hr. rewrite !register_user_run. cbv zeta.
  cbn [set_password uc_email uc_username]. rewrite Hc, Hr.
  case_answers; reflexivity.
Qed.

Lemma register_user_log_ignores_password_witness :
  log (register_user (security := Closed.closed_security)
         Closed.env0 (set_password "other" Closed.alice) Closed.world0).2 =
  log (register_user (security := Closed.closed_security)
         Closed.env0 Closed.alice Closed.world0).2.
Proof.
  exact (register_user_log_ignores_password (security := Closed.closed_security)
           Closed.env0 Closed.alice "other" Closed.world0 eq_refl eq_refl).
Defined.

(** ** main.py: handlers one after the other *)

Lemma register_user_success_inv {security : Security} env user w u w1 :
  pending (db w) = [] →
  register_user env user w = (Return u, w1) →
  find_by_email (table (db w)) (PyStr (uc_email user)) = None ∧
  find_by_username (table (db w)) (uc_username user) = None ∧
  u = row_of (fresh_id (table (db w))) (user_data_of env user) ∧
  table (db w1) = table (db w) ++ [u].
Proof.
  intros Hp. rewrite register_user_run. cbv zeta.
  destruct (inserted_fresh (db w) (user_data_of env user) Hp) as [Hi Hr].
  destruct (fault_query_email env); [done|].
  destruct (find_by_email _ _); [done|].
  destruct (fault_query_username env); [done|].
  destruct (find_by_username _ _); [done|].
  destruct (fault_commit env); [done|].
  destruct (fault_refresh env); [done|].
  intros [= <- <-]. rewrite Hr. unfold logged, set_db. cbn [db].
  rewrite Hi. done.
Qed.

Lemma find_by_email_new_row tbl u :
  find_by_email tbl (PyStr (um_email u)) = None →
  find_by_email (tbl ++ [u]) (PyStr (um_email u)) = Some u.
Proof.
  intros Hf. apply find_app_none; [exact Hf|]. by apply bool_decide_eq_true.
Qed.

(** Register, then log in.  After [register_user] has returned in a fresh
    session, a login with the same email and password, at any later time and
    with a hasher that accepts its own hash, returns a token for that
    email. *)
Theorem register_then_login {security : Security} env env' user w u w1 :
  pending (db w) = [] →
  register_user env user w = (Return u, w1) →
  fault_query_email env' = None →
  verify_password (uc_password user)
    (get_password_hash (salt env) (uc_password user)) = Return true →
  (login env' user w1).1 =
    Return {| access_token :=
                create_access_token (cfg env') (now env')
                  {[ "sub" := PyStr (uc_email user) ]}
                  (timedelta_minutes (ACCESS_TOKEN_EXPIRE_MINUTES (cfg env')));
              token_type := "bearer" |}.
Proof.
  intros Hp Hrun Hq Hver.
  destruct (register_user_success_inv env user w u w1 Hp Hrun) as (Hfe & _ & Hu & Ht).
  assert (um_email u = uc_email user) as He by (by rewrite Hu).
  rewrite login_run. cbv zeta. rewrite Hq, Ht, <- He.
  rewrite find_by_email_new_row by (by rewrite He).
  rewrite Hu. cbn [row_of um_hashed_password user_data_of ud_hashed_password].
  by rewrite Hver.
Qed.

Lemma register_then_login_witness :
  (login (security := Closed.closed_security) Scenario.env_soon Closed.alice
     (register_user (security := Closed.closed_security)
        Closed.env0 Closed.alice Closed.world0).2).1 =
    Return {| access_token :=
                security.issue Closed.mac settings 2000 "a@x.com" 1800;
              token_type := "bearer" |}.
Proof.
  refine (register_then_login (security := Closed.closed_security)
            Closed.env0 Scenario.env_soon Closed.alice Closed.world0
            Scenario.alice_row _ eq_refl _ eq_refl _); vm_compute; reflexivity.
Defined.

(** Register, then register again.  After [register_user] has returned in
    a fresh session, every further registration with the same email is
    rejected with HTTP 400 "Email ya registrado", whatever its username and
    password, and leaves the session as it is. *)
Theorem register_then_register_again {security : Security} env env' user user' w u w1 :
  pending (db w) = [] →
  register_user env user w = (Return u, w1) →
  fault_query_email env' = None →
  uc_email user' = uc_email user →
  (register_user env' user' w1).1 = Raise duplicate_email ∧
  db (register_user env' user' w1).2 = db w1.
Proof.
  intros Hp Hrun Hq Hsame.
  destruct (register_user_success_inv env user w u w1 Hp Hrun) as (Hfe & _ & Hu & Ht).
  assert (um_email u = uc_email user) as He by (by rewrite Hu).
  rewrite register_user_run. cbv zeta. rewrite Hq, Ht, Hsame, <- He.
  rewrite find_by_email_new_row by (by rewrite He). done.
Qed.

Lemma register_then_register_again_witness :
  (register_user (security := Closed.closed_security) Scenario.env_soon Closed.bob
     (register_user (security := Closed.closed_security)
        Closed.env0 Closed.alice Closed.world0).2).1 = Raise duplicate_email.
Proof.
  refine (proj1 (register_then_register_again (security := Closed.closed_security)
            Closed.env0 Scenario.env_soon Closed.alice Closed.bob Closed.world0
            Scenario.alice_row _ eq_refl _ eq_refl eq_refl)); vm_compute; reflexivity.
Defined.

(** Register, then resolve.  After [register_user] has returned in a fresh
    session, [get_current_user] with any token that decodes to a claim set
    whose [sub] is the registered email returns the registered user, writes
    nothing to the log and leaves the store as it is. *)
Theorem register_then_resolve {security : Security} env env' user w u w1 tok claims :
  pending (db w) = [] →
  register_user env user w = (Return u, w1) →
  fault_query_email env' = None →
  decode_token (cfg env') (now env') tok = Return claims →
  claims !! "sub" = Some (PyStr (uc_email user)) →
  get_current_user env' tok w1 = (Return u, w1).
Proof.
  intros Hp Hrun Hq Hdec Hsub.
  destruct (register_user_success_inv env user w u w1 Hp Hrun) as (Hfe & _ & Hu & Ht).
  assert (um_email u = uc_email user) as He by (by rewrite Hu).
  rewrite get_current_user_run. cbv zeta. rewrite Hdec, Hq, Hsub, Ht. cbn [default].
  rewrite <- He. rewrite find_by_email_new_row by (by rewrite He). done.
Qed.

Lemma register_then_resolve_witness :
  (get_current_user (security := Closed.closed_security)
     Scenario.env_soon Scenario.token_alice
     (register_user (security := Closed.closed_security)
        Closed.env0 Closed.alice Closed.world0).2).1 = Return Scenario.alice_row.
Proof.
  refine (f_equal fst
            (register_then_resolve (security := Closed.closed_security)
               Closed.env0 Scenario.env_soon Closed.alice Closed.world0
               Scenario.alice_row _ Scenario.token_alice _ eq_refl _ eq_refl _ _));
    vm_compute; reflexivity.
Defined.

(** ** main.py: failures that are not rejections *)

Lemma find_by_email_PyNone tbl : find_by_email tbl PyNone = None.
Proof. induction tbl as [|u tbl IH]; [done|]. exact IH. Qed.

(** A token that decodes to a claim set without [sub] is rejected like an
    unknown user: [payload.get("sub")] is [None], which is the email of no
    row. *)
Theorem get_current_user_without_sub {security : Security} env tok claims w :
  fault_query_email env = None →
  decode_token (cfg env) (now env) tok = Return claims →
  claims !! "sub" = None →
  (get_current_user env tok w).1 = Raise user_not_found.
Proof.
  intros Hq Hdec Hsub. rewrite get_current_user_run. cbv zeta.
  rewrite Hdec, Hq, Hsub. cbn [default]. by rewrite find_by_email_PyNone.
Qed.

Lemma get_current_user_without_sub_witness :
  (get_current_user (security := Closed.closed_security)
     Scenario.env_soon More.token_no_sub Scenario.world1).1 = Raise user_not_found.
Proof.
  eapply (get_current_user_without_sub (security := Closed.closed_security));
    vm_compute; reflexivity.
Defined.

(** When [verify_password] raises on the stored hash, [login] does not turn
    that into the 401 rejection: the exception reaches the caller as it is,
    after the attempt line and one ERROR line; no "login fallido" warning is
    written and the store is untouched. *)
Theorem login_verify_error_propagates {security : Security} env c u e w :
  fault_query_email env = None →
  find_by_email (table (db w)) (PyStr (uc_email c)) = Some u →
  verify_password (uc_password c) (um_hashed_password u) = Raise e →
  login env c w =
    (Raise e,
     {| db := db w;
        log := log w ++
          [ {| levelname := INFO;
               message := "Intento de login para el email: " +:+ uc_email c |};
            {| levelname := ERROR; message := "Error en login: " +:+ str e |} ] |}).
Proof.
  intros Hq Hf Hv. rewrite login_run. cbv zeta. rewrite Hq, Hf, Hv.
  unfold logged. cbn. by rewrite <- app_assoc.
Qed.

Lemma login_verify_error_propagates_witness :
  (login (security := Closed.closed_security)
     Closed.env0 Closed.alice More.world_bad_hash).1 =
    Raise (PyError "UnknownHashError" "hash could not be identified").
Proof.
  refine (f_equal fst
            (login_verify_error_propagates (security := Closed.closed_security)
               Closed.env0 Closed.alice _ _ More.world_bad_hash eq_refl _ _));
    vm_compute; reflexivity.
Defined.

(** A store that fails on the lookup by email is reported as such: [login]
    and [register_user] raise HTTP 500 "Error al consultar la base de datos"
    with the store's message, whatever the credentials, and so does
    [get_current_user] for every token that decodes; none of them touches the
    store. *)
Theorem lookup_failure_is_500 {security : Security} env f c user tok w :
  fault_query_email env = Some f →
  let e := HTTPException 500 ("Error al consultar la base de datos: " +:+ f.2) None in
  (login env c w).1 = Raise e ∧
  (register_user env user w).1 = Raise e ∧
  (∀ claims, decode_token (cfg env) (now env) tok = Return claims →
             (get_current_user env tok w).1 = Raise e) ∧
  db (login env c w).2 = db w ∧
  db (register_user env user w).2 = db w.
Proof.
  intros Hq e. rewrite login_run, register_user_run, get_current_user_run. cbv zeta.
  rewrite Hq. repeat split. intros claims ->. done.
Qed.

Lemma lookup_failure_is_500_witness :
  (login (security := Closed.closed_security)
     More.env_query_fails Closed.alice Scenario.world1).1 =
    Raise (HTTPException 500 "Error al consultar la base de datos: database is locked" None).
Proof.
  refine (proj1 (lookup_failure_is_500 (security := Closed.closed_security)
                   More.env_query_fails (OperationalError, "database is locked")
                   Closed.alice Closed.alice Scenario.token_alice Scenario.world1
                   eq_refl)).
Defined.

(** ** main.py: the log *)

Ltac solve_log :=
  unfold logs_outcome, logged, set_db; cbn [fst snd log db];
  split;
  [ repeat apply prefix_app_r; reflexivity
  | first [ apply last_snoc
          | rewrite <- ?app_assoc; rewrite drop_app_length; repeat constructor ] ].

(** Every handler only appends to the log.  Whenever one raises, the last
    line it wrote is its ERROR line with [str] of the exception; whenever
    one returns, it wrote INFO lines only. *)
Theorem handlers_log_every_error {security : Security} env c user tok w :
  logs_outcome "Error en login: " w (login env c w) ∧
  logs_outcome "Error en registro de usuario: " w (register_user env user w) ∧
  logs_outcome "Error en autenticación: " w (get_current_user env tok w).
Proof.
  split; [|split].
  - rewrite login_run. cbv zeta.
    destruct (fault_query_email env); [solve_log|].
    destruct (find_by_email _ _); [|solve_log].
    destruct (verify_password _ _) as [[]|]; solve_log.
  - rewrite register_user_run. cbv zeta. case_answers; solve_log.
  - rewrite get_current_user_run. cbv zeta.
    destruct (decode_token _ _ _); [|solve_log].
    case_answers; try solve_log.
    unfold logs_outcome. cbn. split; [reflexivity|]. by rewrite drop_all.
Qed.

(** ** main.py: the security-header middleware *)

(** The middleware applied to a response. *)
Lemma add_security_headers_run {Request : Type} (request : Request) call_next w :
  add_security_headers request call_next w =
    match call_next request w with
    | (Return r, w') =>
        (Return (header_set "Strict-Transport-Security" "max-age=31536000; includeSubDomains"
                   (header_set "X-XSS-Protection" "1; mode=block"
                      (header_set "X-Content-Type-Options" "nosniff"
                         (header_set "X-Frame-Options" "DENY" r)))), w')
    | (Raise e, w') => (Raise e, w')
    end.
Proof.
  unfold add_security_headers. rewrite bind_run.
  destruct (call_next request w) as [[r|e] w']; reflexivity.
Qed.

(** Whatever response the rest of the application returns, and whatever it
    had put under those names, the response that leaves the middleware carries
    the four security headers with their fixed values, under any spelling of
    upper and lower case; every other header, the status and the body are
    those of the inner response, and the world is the one the inner call left.
    An exception of the inner call passes through. *)
Theorem add_security_headers_sets_headers {Request : Type} (request : Request)
    (call_next : Request → M Response) w :
  match call_next request w with
  | (Return r, w') =>
      ∃ r', add_security_headers request call_next w = (Return r', w') ∧
            resp_status r' = resp_status r ∧
            resp_body r' = resp_body r ∧
            (∀ k v k', (k, v) ∈ security_headers → lower k' = lower k →
                       header_get k' r' = Some v) ∧
            (∀ k', (∀ k v, (k, v) ∈ security_headers → lower k' ≠ lower k) →
                   header_get k' r' = header_get k' r)
  | (Raise e, w') => add_security_headers request call_next w = (Raise e, w')
  end.
Proof.
  rewrite add_security_headers_run.
  destruct (call_next request w) as [[r|e] w']; [|reflexivity].
  eexists. split; [reflexivity|]. split; [reflexivity|]. split; [reflexivity|].
  unfold header_get, header_set, security_headers. cbn [resp_headers].
  split.
  - intros k v k' Hin ->.
    repeat (apply elem_of_cons in Hin as [[= -> ->]|Hin]);
      [by simplify_map_eq ..|by apply elem_of_nil in Hin].
  - intros k' Hother.
    rewrite !lookup_insert_ne; [done|..];
      intros Heq; symmetry in Heq; revert Heq;
      eapply Hother; repeat first [apply list_elem_of_here | apply list_elem_of_further].
Qed.

(** Applying the middleware twice gives what applying it once gives. *)
Theorem add_security_headers_idempotent {Request : Type} (request : Request)
    (call_next : Request → M Response) w :
  add_security_headers request (λ r, add_security_headers r call_next) w =
  add_security_headers request call_next w.
Proof.
  rewrite !add_security_headers_run.
  destruct (call_next request w) as [[r|e] w']; [|reflexivity].
  do 2 f_equal. unfold header_set. cbn [resp_status resp_headers resp_body].
  f_equal. apply map_eq. intros i.
  rewrite !lookup_insert. repeat case_decide; done.
Qed.

(** ** main.py: the OpenAPI schema *)

Lemma truthy_insert k v (s : gmap string json) : truthy (Some (<[k := v]> s)) = true.
Proof.
  unfold truthy. apply negb_true_iff, Nat.eqb_neq, map_size_non_empty_iff,
    insert_non_empty.
Qed.

(** After any call of [custom_openapi] the application caches the schema
    that was returned, its routes are untouched, and every later call returns
    that same schema and changes nothing, without consulting [get_openapi]
    again: the schema built always holds the key [tags], so it is never
    taken for an empty cache. *)
Theorem custom_openapi_caches {Routes : Type}
    (get_openapi get_openapi' : string → string → string → Routes → gmap string json)
    (app : FastAPI Routes) :
  let r := custom_openapi get_openapi app in
  openapi_schema r.2 = Some r.1 ∧
  routes r.2 = routes app ∧
  custom_openapi get_openapi' r.2 = r.
Proof.
  cbv zeta. unfold custom_openapi.
  destruct (openapi_schema app) as [cached|] eqn:Hc.
  - destruct (truthy (Some cached)) eqn:Ht; cbn [fst snd openapi_schema routes].
    + by rewrite Hc, Ht.
    + by rewrite truthy_insert.
  - cbn [fst snd openapi_schema routes]. by rewrite truthy_insert.
Qed.

(** With no schema cached, or an empty one, [custom_openapi] builds the
    schema with [get_openapi] for the title "API REST Segura", version
    "1.0.0", the description and the routes of the application, and replaces
    its [tags] by the two tags of the service; every other key is as
    [get_openapi] returned it. *)
Theorem custom_openapi_builds {Routes : Type}
    (get_openapi : string → string → string → Routes → gmap string json)
    (app : FastAPI Routes) :
  truthy (openapi_schema app) = false →
  let built := get_openapi "API REST Segura" "1.0.0" openapi_description (routes app) in
  (custom_openapi get_openapi app).1 !! "tags" = Some openapi_tags ∧
  ∀ k, k ≠ "tags" → (custom_openapi get_openapi app).1 !! k = built !! k.
Proof.
  intros Hf. cbv zeta. unfold custom_openapi.
  destruct (openapi_schema app) as [cached|]; [rewrite Hf|]; cbn;
    (split; [by rewrite lookup_insert_eq | intros k Hk; by rewrite lookup_insert_ne]).
Qed.

Lemma custom_openapi_builds_witness :
  (custom_openapi (λ title version _ _, {[ "info" := JObject [("title", JString title);
                                                               ("version", JString version)] ]})
     {| routes := tt; openapi_schema := Some ∅ |}).1 !! "tags" = Some openapi_tags.
Proof.
  refine (proj1 (custom_openapi_builds _ {| routes := tt; openapi_schema := Some ∅ |} _)).
  vm_compute. reflexivity.
Defined.

(** ** main.py: what a handler never does *)

(** [login] never issues a token unless the store holds a user with the
    submitted email and [verify_password] returned true for the submitted
    password and that user's stored hash; the token is then made for that
    user's email. *)
Theorem login_token_only_if_verified {security : Security} env c w t :
  (login env c w).1 = Return t →
  ∃ u, u ∈ table (db w) ∧
       um_email u = uc_email c ∧
       verify_password (uc_password c) (um_hashed_password u) = Return true ∧
       access_token t =
         create_access_token (cfg env) (now env) {[ "sub" := PyStr (uc_email c) ]}
           (timedelta_minutes (ACCESS_TOKEN_EXPIRE_MINUTES (cfg env))).
Proof.
  rewrite login_run. cbv zeta.
  destruct (fault_query_email env); [done|].
  destruct (find_by_email _ _) as [u|] eqn:Hf; [|done].
  destruct (verify_password _ _) as [[]|] eqn:Hv; [|done..].
  intros [= <-]. destruct (find_by_email_some _ _ _ Hf) as [Hin He].
  exists u. rewrite He. done.
Qed.

Lemma login_token_only_if_verified_witness :
  ∃ u, u ∈ table (db Scenario.world1) ∧ um_email u = "a@x.com".
Proof.
  destruct (login_token_only_if_verified (security := Closed.closed_security)
              Closed.env0 Closed.alice Scenario.world1
              {| access_token := Scenario.token_alice; token_type := "bearer" |})
    as (u & Hin & He & _); [vm_compute; reflexivity|].
  exists u. exact (conj Hin He).
Defined.

(** [get_current_user] never returns a user that is not in the store, nor
    for a token that does not decode: when it returns [u], the token decoded
    to a claim set whose [sub] is the email of [u], and [u] is a row of the
    table. *)
Theorem get_current_user_sound {security : Security} env tok w u :
  (get_current_user env tok w).1 = Return u →
  ∃ claims, decode_token (cfg env) (now env) tok = Return claims ∧
            claims !! "sub" = Some (PyStr (um_email u)) ∧
            u ∈ table (db w).
Proof.
  rewrite get_current_user_run. cbv zeta.
  destruct (decode_token _ _ _) as [claims|]; [|done].
  destruct (fault_query_email env); [done|].
  destruct (find_by_email _ _) as [v|] eqn:Hf; [|done].
  intros [= ->]. exists claims. split; [done|].
  unfold find_by_email in Hf. pose proof (find_elem_of _ _ _ Hf) as Hin.
  apply List.find_some in Hf as [_ Hp]. apply bool_decide_eq_true in Hp.
  split; [|done]. destruct (claims !! "sub") as [v|]; cbn in Hp; [by subst|done].
Qed.

Lemma get_current_user_sound_witness :
  ∃ claims,
    security.decode_token Closed.mac settings 2000 Scenario.token_alice = Return claims ∧
    claims !! "sub" = Some (PyStr "a@x.com").
Proof.
  destruct (get_current_user_sound (security := Closed.closed_security)
              Scenario.env_soon Scenario.token_alice Scenario.world1 Scenario.alice_row)
    as (claims & Hd & Hs & _); [vm_compute; reflexivity|].
  exists claims. exact (conj Hd Hs).
Defined.

(** [register_user] raises nothing but an [HTTPException] with status 400
    or 500, and it changes the table only when it returns or when the status
    is 500. *)
Theorem register_user_error_surface {security : Security} env user w :
  match (register_user env user w).1 with
  | Return _ => True
  | Raise (HTTPException status _ _) =>
      (status = 400 ∧ db (register_user env user w).2 = db w) ∨ status = 500
  | Raise _ => False
  end.
Proof.
  rewrite register_user_run. cbv zeta. case_answers; cbn; auto.
Qed.

Lemma create_user_all_or_nothing_witness :
  table (db (create_user Scenario.env_refresh_fails More.dave_data Scenario.world1).2)
    = table (db Scenario.world1)
  ∨ table (db (create_user Scenario.env_refresh_fails More.dave_data Scenario.world1).2)
    = table (db Scenario.world1)
        ++ [row_of (fresh_id (table (db Scenario.world1))) More.dave_data].
Proof.
  exact (proj2 (create_user_all_or_nothing Scenario.env_refresh_fails More.dave_data
                  Scenario.world1 eq_refl)).
Defined.
